(** * Container control manager: the lifecycle operations of [main.py]

    A shallow embedding of the HTTP handlers of [src/main.py] (status, start,
    stop, restart, update-data, rebuild) and the properties of their polling
    loops, short-circuits and error paths.

    The container engine, the clock and the host file system are external:
    they are an interface ([Runtime]) whose calls may succeed or raise.  Every
    handler is a computation in a small monad that threads the state of that
    outside world, propagates Python exceptions and records each external call
    together with its answer.  Console output ([print]) is not modelled. *)

From stdpp Require Import base option list strings gmap.
From Stdlib Require Import Ascii String.

Local Open Scope string_scope.
Local Open Scope list_scope.

(** ** Configuration (lines 7-14) *)

Definition CONTAINER_NAME : string := "my-trading-bot-managed".
Definition IMAGE_NAME : string := "trading-bot".
Definition CONTAINER_DATA_PATH : string := "/app/data".

(** [posixpath.join] with two arguments: an absolute second component
    discards the first; otherwise the two are glued with exactly one
    separator. *)
Definition startswith_sep (b : string) : bool :=
  match b with
  | String "/" _ => true
  | _ => false
  end.

Fixpoint endswith_sep (a : string) : bool :=
  match a with
  | EmptyString => false
  | String "/" EmptyString => true
  | String _ rest => endswith_sep rest
  end.

Definition path_join (a b : string) : string :=
  if startswith_sep b then b
  else if (a =? "")%string || endswith_sep a then a ++ b
  else a ++ "/" ++ b.

(** [os.path.abspath] of a relative path without dot-dot components is the
    working directory joined with that path; [cwd] is what [os.getcwd()]
    returned when the module was loaded (absolute and normalised). *)
Definition HOST_DATA_PATH (cwd : string) : string := path_join cwd "app/trading_data".
Definition BUILD_CONTEXT_PATH (cwd : string) : string := cwd.

(** ** Values exchanged with the engine and with the caller *)

(** A container handle as docker-py gives it: the identity of the container
    and the attributes cached at the last lookup or reload. *)
Record Container := mkContainer { cid : nat; name : string; status : string }.

Definition with_status (c : Container) (s : string) : Container :=
  {| cid := cid c; name := name c; status := s |}.

(** One bind mount of the [volumes] dictionary. *)
Record Mount := mkMount { host_path : string; bind : string; mode : string }.

(** A decoded chunk of the build stream: a dictionary, of which the handler
    reads the ["stream"] key only. *)
Abbreviation chunk := (gmap string string).

(** What a call to the outside world can raise.  [ImageNotFound] is a
    subclass of [NotFound]; [BuildError] carries the failure reason ([msg]) and
    the build log; [IOError] comes from the file system; [OtherError] stands
    for every other exception class.  The string is [str(e)]. *)
Inductive fault :=
| NotFound (msg : string)
| ImageNotFound (msg : string)
| BuildError (msg : string) (build_log : list chunk)
| IOError (msg : string)
| OtherError (msg : string).

Definition fault_str (f : fault) : string :=
  match f with
  | NotFound m | ImageNotFound m | BuildError m _ | IOError m | OtherError m => m
  end.

(** [isinstance(e, docker.errors.NotFound)] and friends. *)
Definition is_NotFound (f : fault) : bool :=
  match f with NotFound _ | ImageNotFound _ => true | _ => false end.
Definition is_ImageNotFound (f : fault) : bool :=
  match f with ImageNotFound _ => true | _ => false end.
Definition is_IOError (f : fault) : bool :=
  match f with IOError _ => true | _ => false end.

(** JSON-like values: what a handler returns and what an [HTTPException]
    carries as [detail].  [PHTTPException] is an exception object used as a
    plain value. *)
#[warnings="-register-all"]
Inductive pyval :=
| PStr (s : string)
| PDict (items : list (string * pyval))
| PHTTPException (status_code : nat) (detail : pyval).

Inductive exn :=
| HTTPException (status_code : nat) (detail : pyval)
| Fault (f : fault).

(** ** The outside world *)

Inductive event :=
| EFromEnv (r : fault + unit)
| EPing (r : fault + unit)
| EGet (container_name : string) (r : fault + Container)
| ERun (image container_name : string) (volumes : list Mount) (r : fault + Container)
| EReload (id : nat) (r : fault + string)
| ELogs (id : nat) (r : fault + string)
| EStop (id : nat) (r : fault + unit)
| ERestart (id : nat) (r : fault + unit)
| ERemove (id : nat) (r : fault + unit)
| EBuild (path tag : string) (r : fault + list chunk)
| ESleep (seconds : nat)
| EWrite (path content : string) (r : fault + unit).

(** The capabilities the handlers use.  [containers_run] is
    [client.containers.run(..., detach=True)]; [container_reload] answers
    with the refreshed status; [container_logs] with the decoded log text
    (a fetch or decoding failure is a fault); [images_build] with the chunks
    of the log generator; [file_write] is [open(path, 'w')] followed by
    [write]. *)
Class Runtime (W : Type) := {
  docker_from_env : W -> (fault + unit) * W;
  client_ping : W -> (fault + unit) * W;
  containers_get : string -> W -> (fault + Container) * W;
  containers_run : string -> string -> list Mount -> W -> (fault + Container) * W;
  container_reload : nat -> W -> (fault + string) * W;
  container_logs : nat -> W -> (fault + string) * W;
  container_stop : nat -> W -> (fault + unit) * W;
  container_restart : nat -> W -> (fault + unit) * W;
  container_remove : nat -> W -> (fault + unit) * W;
  images_build : string -> string -> W -> (fault + list chunk) * W;
  time_sleep : nat -> W -> W;
  file_write : string -> string -> W -> (fault + unit) * W
}.

(** ** The monad of handlers *)

Inductive res (A : Type) :=
| Ok (a : A)
| Raise (e : exn).
Arguments Ok {A} a.
Arguments Raise {A} e.

Definition M (W A : Type) : Type := W -> res A * W * list event.

Definition ret {W A} (a : A) : M W A := fun w => (Ok a, w, []).
Definition raise {W A} (e : exn) : M W A := fun w => (Raise e, w, []).

Definition and_then {W A B} (m : M W A) (k : A -> M W B) : M W B :=
  fun w =>
    match m w with
    | (Ok a, w1, t1) =>
        match k a w1 with
        | (r, w2, t2) => (r, w2, t1 ++ t2)
        end
    | (Raise e, w1, t1) => (Raise e, w1, t1)
    end.

(** [try: body except ...: handler] around calls to the outside world.  The
    handler receives the fault in flight and re-raises what none of its
    clauses matches.  An [HTTPException] in flight passes through: that is
    the [isinstance(e, HTTPException): raise e] of lines 66, 83 and 99, and
    [except IOError] of line 109 does not match it either; the other [try]
    blocks only make external calls, which raise faults. *)
Definition try_except {W A} (body : M W A) (handler : fault -> M W A) : M W A :=
  fun w =>
    match body w with
    | (Ok a, w1, t1) => (Ok a, w1, t1)
    | (Raise (HTTPException c d), w1, t1) => (Raise (HTTPException c d), w1, t1)
    | (Raise (Fault f), w1, t1) =>
        match handler f w1 with
        | (r, w2, t2) => (r, w2, t1 ++ t2)
        end
    end.

(** One external call: perform it, record it, raise its fault. *)
Definition invoke {W A} (op : W -> (fault + A) * W) (ev : fault + A -> event) : M W A :=
  fun w =>
    match op w with
    | (inl f, w1) => (Raise (Fault f), w1, [ev (inl f)])
    | (inr a, w1) => (Ok a, w1, [ev (inr a)])
    end.

Declare Scope handler_scope.
Delimit Scope handler_scope with handler.
Notation "'let!' x ':=' m 'in' k" := (and_then m (fun x => k))
  (at level 10, x name, m at level 100, k at level 200) : handler_scope.
Notation "m '>>' k" := (and_then m (fun _ => k))
  (at level 100, k at level 200, right associativity) : handler_scope.
Local Open Scope handler_scope.

(** Projections of a finished run. *)
Definition result {A W} (x : res A * W * list event) : res A := x.1.1.
Definition world {A W} (x : res A * W * list event) : W := x.1.2.
Definition events {A W} (x : res A * W * list event) : list event := x.2.

(** ** Python's [str.strip]

    Text is UTF-8.  The white space [str.strip] removes is the code points
    U+0009-000D, U+001C-0020, U+0085, U+00A0, U+1680, U+2000-200A, U+2028,
    U+2029, U+202F, U+205F and U+3000: [is_space] has the ones of one byte,
    [two_byte_space] and [three_byte_space] the encodings of the others. *)

Definition is_space (a : ascii) : bool :=
  let n := nat_of_ascii a in
  (((9 <=? n) && (n <=? 13)) || ((28 <=? n) && (n <=? 32)))%nat.

Definition two_byte_space (a b : ascii) : bool :=
  let x := nat_of_ascii a in
  let y := nat_of_ascii b in
  ((x =? 194) && ((y =? 133) || (y =? 160)))%nat.

Definition three_byte_space (a b c : ascii) : bool :=
  let x := nat_of_ascii a in
  let y := nat_of_ascii b in
  let z := nat_of_ascii c in
  (((x =? 225) && (y =? 154) && (z =? 128))
   || ((x =? 226) && (y =? 128)
       && (((128 <=? z) && (z <=? 138)) || (z =? 168) || (z =? 169) || (z =? 175)))
   || ((x =? 226) && (y =? 129) && (z =? 159))
   || ((x =? 227) && (y =? 128) && (z =? 128)))%nat.

Fixpoint lstrip (s : string) : string :=
  match s with
  | EmptyString => EmptyString
  | String a rest =>
      if is_space a then lstrip rest
      else
        match rest with
        | String b rest1 =>
            if two_byte_space a b then lstrip rest1
            else
              match rest1 with
              | String c rest2 => if three_byte_space a b c then lstrip rest2 else s
              | EmptyString => s
              end
        | EmptyString => s
        end
  end.

(** Is the text exactly one white-space character? *)
Definition is_one_space (s : string) : bool :=
  match s with
  | String a EmptyString => is_space a
  | String a (String b EmptyString) => two_byte_space a b
  | String a (String b (String c EmptyString)) => three_byte_space a b c
  | _ => false
  end.

(** From the right: what is kept of the rest decides; a character is dropped
    when it is white space and nothing is kept after it. *)
Fixpoint rstrip (s : string) : string :=
  match s with
  | EmptyString => EmptyString
  | String a rest =>
      let kept := String a (rstrip rest) in
      if is_one_space kept then EmptyString else kept
  end.

Definition strip (s : string) : string := rstrip (lstrip s).

Definition newline : string := String (ascii_of_nat 10) EmptyString.

(** ** The handlers *)

Inductive DockerClient := docker_client.

Definition unavailable : exn :=
  HTTPException 503 (PStr "Docker daemon is not available.").

Section Handlers.
Context {W : Type} {RT : Runtime W}.
Variable cwd : string.

(** The primitive calls, as the handlers spell them. *)
Definition get (container_name : string) : M W Container :=
  invoke (containers_get container_name) (EGet container_name).
Definition run (image container_name : string) (volumes : list Mount) : M W Container :=
  invoke (containers_run image container_name volumes) (ERun image container_name volumes).
Definition reload (container : Container) : M W Container :=
  let! s := invoke (container_reload (cid container)) (EReload (cid container)) in
  ret (with_status container s).
Definition logs (container : Container) : M W string :=
  invoke (container_logs (cid container)) (ELogs (cid container)).
Definition stop (container : Container) : M W unit :=
  invoke (container_stop (cid container)) (EStop (cid container)).
Definition restart (container : Container) : M W unit :=
  invoke (container_restart (cid container)) (ERestart (cid container)).
Definition remove (container : Container) : M W unit :=
  invoke (container_remove (cid container)) (ERemove (cid container)).
Definition build (path tag : string) : M W (list chunk) :=
  invoke (images_build path tag) (EBuild path tag).
Definition sleep (seconds : nat) : M W unit :=
  fun w => (Ok tt, time_sleep seconds w, [ESleep seconds]).
Definition write (path content : string) : M W unit :=
  invoke (file_write path content) (EWrite path content).

(** Lines 19-25: the module-level connection attempt; [client] is [None]
    when [from_env] or [ping] raised. *)
Definition connect : M W (option DockerClient) :=
  try_except
    (invoke docker_from_env EFromEnv >>
     invoke client_ping EPing >>
     ret (Some docker_client))
    (fun _ => ret None).

Definition require_client {A} (client : option DockerClient) (k : M W A) : M W A :=
  match client with
  | None => raise unavailable
  | Some _ => k
  end.

(** [GET /status], lines 35-43. *)
Definition get_status (client : option DockerClient) : M W pyval :=
  require_client client
    (try_except
       (let! container := get CONTAINER_NAME in
        ret (PDict [("container_name", PStr (name container));
                    ("status", PStr (status container))]))
       (fun e =>
          if is_NotFound e then ret (PDict [("status", PStr "not_found")])
          else raise (HTTPException 500 (PStr (fault_str e))))).

(** The loop of lines 58-63. *)
Fixpoint start_poll (attempts : nat) (container : Container) : M W pyval :=
  match attempts with
  | O => raise (HTTPException 504 (PStr "Container start timed out."))
  | S attempts' =>
      sleep 1 >>
      let! container := reload container in
      if (status container =? "running")%string then
        ret (PDict [("status", PStr "started_and_running")])
      else if ((status container =? "exited") || (status container =? "dead"))%string then
        let! logs := logs container in
        raise (HTTPException 500
                 (PDict [("status", PStr "container_failed_to_start");
                         ("logs", PStr logs)]))
      else start_poll attempts' container
  end.

Definition volumes : list Mount :=
  [ {| host_path := HOST_DATA_PATH cwd; bind := CONTAINER_DATA_PATH; mode := "rw" |} ].

(** [POST /start], lines 46-67.  The first [try] either returns early
    ([Some]) or falls through ([None]). *)
Definition start_container (client : option DockerClient) : M W pyval :=
  require_client client
    (let! early :=
       try_except
         (let! container := get CONTAINER_NAME in
          if (status container =? "running")%string
          then ret (Some (PDict [("status", PStr "already_running")]))
          else ret None)
         (fun e => if is_NotFound e then ret None else raise (Fault e)) in
     match early with
     | Some response => ret response
     | None =>
         try_except
           (let! container := run IMAGE_NAME CONTAINER_NAME volumes in
            start_poll 10 container)
           (fun e =>
              if is_ImageNotFound e then
                raise (HTTPException 404
                         (PStr ("Image '" ++ IMAGE_NAME ++ "' not found. Please build it first.")))
              else
                raise (HTTPException 500
                         (PStr ("An unexpected error occurred: " ++ fault_str e))))
     end).

(** The loop of lines 76-80. *)
Fixpoint stop_poll (attempts : nat) (container : Container) : M W pyval :=
  match attempts with
  | O => raise (HTTPException 504 (PStr "Container stop timed out."))
  | S attempts' =>
      let! container := reload container in
      if (status container =? "exited")%string then
        ret (PDict [("status", PStr "stopped_and_verified")])
      else
        sleep 1 >>
        stop_poll attempts' container
  end.

(** [POST /stop], lines 70-84. *)
Definition stop_container (client : option DockerClient) : M W pyval :=
  require_client client
    (try_except
       (let! container := get CONTAINER_NAME in
        if (status container =? "exited")%string then
          ret (PDict [("status", PStr "already_stopped")])
        else
          stop container >>
          stop_poll 10 container)
       (fun e =>
          if is_NotFound e then ret (PDict [("status", PStr "not_found_or_already_stopped")])
          else raise (HTTPException 500 (PStr (fault_str e))))).

(** The loop of lines 91-96. *)
Fixpoint restart_poll (attempts : nat) (container : Container) : M W pyval :=
  match attempts with
  | O => raise (HTTPException 504 (PStr "Container restart timed out."))
  | S attempts' =>
      sleep 1 >>
      let! container := reload container in
      if (status container =? "running")%string then
        ret (PDict [("status", PStr "restarted_and_running")])
      else if ((status container =? "exited") || (status container =? "dead"))%string then
        let! logs := logs container in
        raise (HTTPException 500
                 (PDict [("status", PStr "container_failed_on_restart");
                         ("logs", PStr logs)]))
      else restart_poll attempts' container
  end.

(** [POST /restart], lines 87-100. *)
Definition restart_container (client : option DockerClient) : M W pyval :=
  require_client client
    (try_except
       (let! container := get CONTAINER_NAME in
        restart container >>
        restart_poll 10 container)
       (fun e =>
          if is_NotFound e then raise (HTTPException 404 (PStr "Container not found."))
          else raise (HTTPException 500 (PStr (fault_str e))))).

(** The request body of [/update-data]. *)
Record DataUpdateRequest := mkRequest { filename : string; content : string }.

(** [POST /update-data], lines 103-114.  Only [IOError] is caught around
    the write; [restart_container] is called inside the handler, before the
    handler's own [raise]. *)
Definition update_data (client : option DockerClient) (request : DataUpdateRequest) : M W pyval :=
  stop_container client >>
  let file_path := path_join (HOST_DATA_PATH cwd) (filename request) in
  try_except
    (write file_path (content request))
    (fun e =>
       if is_IOError e then
         restart_container client >>
         raise (HTTPException 500 (PStr ("Failed to write to file: " ++ fault_str e)))
       else raise (Fault e)) >>
  restart_container client >>
  ret (PDict [("status", PStr "data_updated_and_restarted");
              ("filename", PStr (filename request))]).

(** Lines 155-159: the accumulated text of the ["stream"] entries. *)
Fixpoint stream_logs (logs_generator : list chunk) (build_logs : string) : string :=
  match logs_generator with
  | [] => build_logs
  | chunk :: rest =>
      match chunk !! "stream" with
      | Some text =>
          let line := strip text in
          stream_logs rest (build_logs ++ line ++ newline)
      | None => stream_logs rest build_logs
      end
  end.

(** [POST /rebuild], lines 118-179.  The build step either leaves the
    handler with a value ([inl]) or falls through with the accumulated log
    text ([inr]): on [BuildError] the handler RETURNS the [HTTPException]
    object (line 164), on any other build exception it raises one
    (line 166). *)
Definition rebuild_and_redeploy (client : option DockerClient) : M W pyval :=
  require_client client
    (try_except
       (let! container := get CONTAINER_NAME in
        stop container >>
        remove container)
       (fun e =>
          if is_NotFound e then ret tt
          else raise (HTTPException 500
                        (PStr ("Error removing old container: " ++ fault_str e)))) >>
     let! built :=
       try_except
         (let! logs_generator := build (BUILD_CONTEXT_PATH cwd) IMAGE_NAME in
          ret (inr (stream_logs logs_generator "")))
         (fun e =>
            match e with
            | BuildError msg _ =>
                ret (inl (PHTTPException 500
                            (PDict [("status", PStr "build_failed");
                                    ("logs", PStr msg)])))
            | _ =>
                raise (HTTPException 500
                         (PStr ("An unexpected error occurred during build: " ++ fault_str e)))
            end) in
     match built with
     | inl returned => ret returned
     | inr build_logs =>
         let! start_response := start_container client in
         ret (PDict [("status", PStr "rebuild_and_restart_successful");
                     ("final_container_status", start_response);
                     ("build_logs", PStr build_logs)])
     end).

End Handlers.

(** ** A fake engine

    A deterministic stand-in for the container engine, the clock and the data
    directory, in the manner of a test double.  It hosts at most one
    container.  A container follows a script of statuses: the first entry is
    taken as soon as the command that installs the script returns, the next
    ones one per second of [time_sleep]; the last one persists. *)
Module Fake.

Record Box := mkBox { box_id : nat; box_name : string; box_status : string; box_script : list string }.

Record Engine := mkEngine {
  daemon_up : bool;                      (* does the daemon answer at start-up? *)
  box : option Box;                      (* the container, when there is one *)
  image_present : bool;                  (* is the image tag known? *)
  boot : list string;                    (* script of a container that is started *)
  halt : list string;                    (* script of a container that is stopped *)
  output : string;                       (* what a container has logged *)
  build_outcome : fault + list chunk;    (* what building the image yields *)
  files : gmap string string;            (* the host files *)
  read_only : bool;                      (* do writes fail? *)
  creations : nat                        (* containers created so far *)
}.

Definition set_box (e : Engine) (b : option Box) : Engine :=
  mkEngine (daemon_up e) b (image_present e) (boot e) (halt e) (output e)
           (build_outcome e) (files e) (read_only e) (creations e).

Definition play (b : Box) : Box :=
  match box_script b with
  | [] => b
  | s :: rest => mkBox (box_id b) (box_name b) s rest
  end.

Definition follow (script : list string) (b : Box) : Box :=
  play (mkBox (box_id b) (box_name b) (box_status b) script).

Definition handle (b : Box) : Container :=
  {| cid := box_id b; name := box_name b; status := box_status b |}.

Definition no_such (what : string) : fault := NotFound ("No such container: " ++ what).

Definition find (id : nat) (e : Engine) : option Box :=
  match box e with
  | Some b => if Nat.eqb (box_id b) id then Some b else None
  | None => None
  end.

Definition is_active (s : string) : bool :=
  ((s =? "running") || (s =? "restarting") || (s =? "paused"))%string.

Definition answer (e : Engine) : (fault + unit) * Engine :=
  if daemon_up e then (inr tt, e)
  else (inl (OtherError "Error while fetching server API version"), e).

Definition lookup_by_name (container_name : string) (e : Engine) : (fault + Container) * Engine :=
  match box e with
  | Some b =>
      if (box_name b =? container_name)%string then (inr (handle b), e)
      else (inl (no_such container_name), e)
  | None => (inl (no_such container_name), e)
  end.

Definition create_and_run (image container_name : string) (vols : list Mount) (e : Engine)
  : (fault + Container) * Engine :=
  if negb (image_present e) then
    (inl (ImageNotFound ("No such image: " ++ image)), e)
  else
    match box e with
    | Some _ => (inl (OtherError "409 Client Error: Conflict (container name already in use)"), e)
    | None =>
        let b := play (mkBox (creations e) container_name "created" (boot e)) in
        (inr (handle b),
         mkEngine (daemon_up e) (Some b) (image_present e) (boot e) (halt e) (output e)
                  (build_outcome e) (files e) (read_only e) (S (creations e)))
    end.

Definition read_status (id : nat) (e : Engine) : (fault + string) * Engine :=
  match find id e with
  | Some b => (inr (box_status b), e)
  | None => (inl (no_such "(by id)"), e)
  end.

Definition read_logs (id : nat) (e : Engine) : (fault + string) * Engine :=
  match find id e with
  | Some _ => (inr (output e), e)
  | None => (inl (no_such "(by id)"), e)
  end.

(** Stopping a container that is not active changes nothing. *)
Definition do_stop (id : nat) (e : Engine) : (fault + unit) * Engine :=
  match find id e with
  | Some b =>
      if is_active (box_status b) then (inr tt, set_box e (Some (follow (halt e) b)))
      else (inr tt, e)
  | None => (inl (no_such "(by id)"), e)
  end.

Definition do_restart (id : nat) (e : Engine) : (fault + unit) * Engine :=
  match find id e with
  | Some b => (inr tt, set_box e (Some (follow (boot e) b)))
  | None => (inl (no_such "(by id)"), e)
  end.

(** An active container is not removed. *)
Definition do_remove (id : nat) (e : Engine) : (fault + unit) * Engine :=
  match find id e with
  | Some b =>
      if is_active (box_status b)
      then (inl (OtherError "409 Client Error: Conflict (cannot remove a running container)"), e)
      else (inr tt, set_box e None)
  | None => (inl (no_such "(by id)"), e)
  end.

Definition do_build (path tag : string) (e : Engine) : (fault + list chunk) * Engine :=
  match build_outcome e with
  | inl f => (inl f, e)
  | inr chunks =>
      (inr chunks,
       mkEngine (daemon_up e) (box e) true (boot e) (halt e) (output e)
                (build_outcome e) (files e) (read_only e) (creations e))
  end.

Fixpoint pass (seconds : nat) (e : Engine) : Engine :=
  match seconds with
  | O => e
  | S n => pass n (set_box e (play <$> box e))
  end.

Definition do_write (path content : string) (e : Engine) : (fault + unit) * Engine :=
  if read_only e then
    (inl (IOError ("[Errno 30] Read-only file system: '" ++ path ++ "'")), e)
  else
    (inr tt,
     mkEngine (daemon_up e) (box e) (image_present e) (boot e) (halt e) (output e)
              (build_outcome e) (<[path := content]> (files e)) (read_only e) (creations e)).

#[global] Instance runtime : Runtime Engine := {|
  docker_from_env := answer;
  client_ping := answer;
  containers_get := lookup_by_name;
  containers_run := create_and_run;
  container_reload := read_status;
  container_logs := read_logs;
  container_stop := do_stop;
  container_restart := do_restart;
  container_remove := do_remove;
  images_build := do_build;
  time_sleep := pass;
  file_write := do_write
|}.

(** A host with the image built and nothing running; containers come up at
    once and stop at once. *)
Definition fresh : Engine :=
  mkEngine true None true ["running"] ["exited"] "ready" (inr []) ∅ false 0.

Definition with_box (status : string) (e : Engine) : Engine :=
  set_box e (Some (mkBox 0 CONTAINER_NAME status [])).

End Fake.

Definition client : option DockerClient := Some docker_client.

(** ** Reading a run *)

Definition is_running (s : string) : bool := (s =? "running")%string.
Definition is_failure (s : string) : bool := ((s =? "exited") || (s =? "dead"))%string.
Definition is_exited (s : string) : bool := (s =? "exited")%string.

(** A state that neither ends the polling of start and restart with success
    nor with failure. *)
Definition undecided (s : string) : bool := negb (is_running s) && negb (is_failure s).

Definition is_creation (e : event) : bool :=
  match e with ERun _ _ _ _ => true | _ => false end.
Definition is_stop_command (e : event) : bool :=
  match e with EStop _ _ => true | _ => false end.
Definition is_read (e : event) : bool :=
  match e with EReload _ _ => true | _ => false end.
Definition touches_container (e : event) : bool :=
  match e with EStop _ _ | ERestart _ _ | ERemove _ _ => true | _ => false end.

Fixpoint count (p : event -> bool) (t : list event) : nat :=
  match t with
  | [] => 0
  | e :: rest => (if p e then 1 else 0) + count p rest
  end.

(** One attempt of a loop that waits and then reads, and one of a loop that
    reads and then waits. *)
Definition wait_read (id : nat) (s : string) : list event := [ESleep 1; EReload id (inr s)].
Definition read_wait (id : nat) (s : string) : list event := [EReload id (inr s); ESleep 1].

(** Is every re-read of the state directly preceded by a wait of one second? *)
Fixpoint waits_before_each_read (t : list event) : bool :=
  match t with
  | [] => true
  | ESleep 1 :: EReload _ _ :: rest => waits_before_each_read rest
  | EReload _ _ :: _ => false
  | _ :: rest => waits_before_each_read rest
  end.

(** How a wait-then-read loop of at most [max] attempts ends after [k]
    undecided attempts: the calls of its last attempt and what it hands
    back.  [converged] is the success value, [failure_status] the status
    field of the failure detail, [timeout_detail] the text of the 504. *)
Inductive wait_first_ending (id max : nat) (converged : pyval) (failure_status timeout_detail : string)
  : nat -> list event -> res pyval -> Prop :=
| wf_timed_out :
    wait_first_ending id max converged failure_status timeout_detail
      max [] (Raise (HTTPException 504 (PStr timeout_detail)))
| wf_converged k :
    k < max ->
    wait_first_ending id max converged failure_status timeout_detail
      k (wait_read id "running") (Ok converged)
| wf_failed k s text :
    k < max -> is_failure s = true ->
    wait_first_ending id max converged failure_status timeout_detail
      k (wait_read id s ++ [ELogs id (inr text)])
      (Raise (HTTPException 500 (PDict [("status", PStr failure_status); ("logs", PStr text)])))
| wf_read_raised k f :
    k < max ->
    wait_first_ending id max converged failure_status timeout_detail
      k [ESleep 1; EReload id (inl f)] (Raise (Fault f))
| wf_logs_raised k s f :
    k < max -> is_failure s = true ->
    wait_first_ending id max converged failure_status timeout_detail
      k (wait_read id s ++ [ELogs id (inl f)]) (Raise (Fault f)).

(** The same for the read-then-wait loop of stop, which has no failure
    states. *)
Inductive read_first_ending (id max : nat) : nat -> list event -> res pyval -> Prop :=
| rf_timed_out :
    read_first_ending id max max [] (Raise (HTTPException 504 (PStr "Container stop timed out.")))
| rf_converged k :
    k < max ->
    read_first_ending id max k [EReload id (inr "exited")]
      (Ok (PDict [("status", PStr "stopped_and_verified")]))
| rf_read_raised k f :
    k < max ->
    read_first_ending id max k [EReload id (inl f)] (Raise (Fault f)).

(** What the [except] clauses of start, stop and restart make of a fault,
    and their effect on the result of the guarded block. *)
Definition recover {A} (handler : fault -> res A) (r : res A) : res A :=
  match r with
  | Raise (Fault f) => handler f
  | _ => r
  end.

Definition start_handler (f : fault) : res pyval :=
  if is_ImageNotFound f then
    Raise (HTTPException 404 (PStr ("Image '" ++ IMAGE_NAME ++ "' not found. Please build it first.")))
  else
    Raise (HTTPException 500 (PStr ("An unexpected error occurred: " ++ fault_str f))).

Definition stop_handler (f : fault) : res pyval :=
  if is_NotFound f then Ok (PDict [("status", PStr "not_found_or_already_stopped")])
  else Raise (HTTPException 500 (PStr (fault_str f))).

Definition restart_handler (f : fault) : res pyval :=
  if is_NotFound f then Raise (HTTPException 404 (PStr "Container not found."))
  else Raise (HTTPException 500 (PStr (fault_str f))).

Definition start_timeout : exn := HTTPException 504 (PStr "Container start timed out.").

Definition start_failure (text : string) : exn :=
  HTTPException 500 (PDict [("status", PStr "container_failed_to_start"); ("logs", PStr text)]).

Section Launch.
Context {W : Type} {RT : Runtime W}.
Variable cwd : string.

(** What start does once the lookup has not short-circuited: create and
    run, then poll; [seen] is the lookup already recorded. *)
Definition launch (seen : list event) (w : W) : res pyval * W * list event :=
  match containers_run IMAGE_NAME CONTAINER_NAME (volumes cwd) w with
  | (inl f, w1) =>
      (start_handler f, w1, seen ++ [ERun IMAGE_NAME CONTAINER_NAME (volumes cwd) (inl f)])
  | (inr c, w1) =>
      match start_poll 10 c w1 with
      | (r, w2, t) =>
          (recover start_handler r, w2,
           seen ++ ERun IMAGE_NAME CONTAINER_NAME (volumes cwd) (inr c) :: t)
      end
  end.
End Launch.

Definition cleanup_handler (f : fault) : res unit :=
  if is_NotFound f then Ok tt
  else Raise (HTTPException 500 (PStr ("Error removing old container: " ++ fault_str f))).

Definition build_handler (f : fault) : res pyval :=
  match f with
  | BuildError msg _ =>
      Ok (PHTTPException 500 (PDict [("status", PStr "build_failed"); ("logs", PStr msg)]))
  | _ =>
      Raise (HTTPException 500 (PStr ("An unexpected error occurred during build: " ++ fault_str f)))
  end.

Section Cleanup.
Context {W : Type} {RT : Runtime W}.

(** Step 1 of rebuild, call by call. *)
Definition remove_old (w : W) : res unit * W * list event :=
  match containers_get CONTAINER_NAME w with
  | (inl f, w1) => (cleanup_handler f, w1, [EGet CONTAINER_NAME (inl f)])
  | (inr c, w1) =>
      match container_stop (cid c) w1 with
      | (inl f, w2) =>
          (cleanup_handler f, w2, [EGet CONTAINER_NAME (inr c); EStop (cid c) (inl f)])
      | (inr _, w2) =>
          match container_remove (cid c) w2 with
          | (inl f, w3) =>
              (cleanup_handler f, w3,
               [EGet CONTAINER_NAME (inr c); EStop (cid c) (inr tt); ERemove (cid c) (inl f)])
          | (inr _, w3) =>
              (Ok tt, w3,
               [EGet CONTAINER_NAME (inr c); EStop (cid c) (inr tt); ERemove (cid c) (inr tt)])
          end
      end
  end.
End Cleanup.

(** The calls after which the engine has reported the container absent or
    removed: a lookup, a stop or a removal answered with not-found, or a
    removal that succeeded. *)
Inductive container_gone : list event -> Prop :=
| gone_not_found f :
    is_NotFound f = true ->
    container_gone [EGet CONTAINER_NAME (inl f)]
| gone_before_stop c f :
    is_NotFound f = true ->
    container_gone [EGet CONTAINER_NAME (inr c); EStop (cid c) (inl f)]
| gone_before_remove c f :
    is_NotFound f = true ->
    container_gone [EGet CONTAINER_NAME (inr c); EStop (cid c) (inr tt); ERemove (cid c) (inl f)]
| gone_removed c :
    container_gone [EGet CONTAINER_NAME (inr c); EStop (cid c) (inr tt); ERemove (cid c) (inr tt)].

(** The calls step 1 of rebuild can make, and those start can make. *)
Definition is_cleanup_event (e : event) : bool :=
  match e with EGet _ _ | EStop _ _ | ERemove _ _ => true | _ => false end.

Definition is_start_event (e : event) : bool :=
  match e with
  | EGet _ _ | ERun _ _ _ _ | ESleep _ | EReload _ _ | ELogs _ _ => true
  | _ => false
  end.

(** What the engine last said about the container in a run: the status of a
    lookup or a re-read, or the fault of a lookup, a re-read or a stop. *)
Definition answer_of (e : event) : option (fault + string) :=
  match e with
  | EGet _ (inl f) => Some (inl f)
  | EGet _ (inr c) => Some (inr (status c))
  | EReload _ r => Some r
  | EStop _ (inl f) => Some (inl f)
  | _ => None
  end.

Fixpoint last_answer (t : list event) : option (fault + string) :=
  match t with
  | [] => None
  | [e] => answer_of e
  | _ :: rest => last_answer rest
  end.

(** The container is reported [exited], or reported absent. *)
Definition settled (a : fault + string) : bool :=
  match a with
  | inl f => is_NotFound f
  | inr s => is_exited s
  end.

Definition view (g : fault + Container) : fault + string :=
  match g with
  | inl f => inl f
  | inr c => inr (status c)
  end.

Definition short_circuit_of_stop (g : fault + Container) : pyval :=
  match g with
  | inl _ => PDict [("status", PStr "not_found_or_already_stopped")]
  | inr _ => PDict [("status", PStr "already_stopped")]
  end.

(** Is [path] textually inside the directory [dir]? *)
Definition is_under (dir path : string) : bool := String.prefix (dir ++ "/") path.

(** Some situations of the fake engine; the service runs in [cwd0]. *)
Definition cwd0 : string := "/srv/manager".

Definition started_once : Fake.Engine := world (start_container cwd0 client Fake.fresh).

Definition never_started : Fake.Engine := Fake.with_box "created" Fake.fresh.

Definition stopped_earlier : Fake.Engine := Fake.with_box "exited" Fake.fresh.

Definition unwritable (e : Fake.Engine) : Fake.Engine :=
  Fake.mkEngine (Fake.daemon_up e) (Fake.box e) (Fake.image_present e) (Fake.boot e)
    (Fake.halt e) (Fake.output e) (Fake.build_outcome e) (Fake.files e) true (Fake.creations e).

Definition build_log_text : list chunk :=
  [ {[ "stream" := ("Step 1/2 : FROM python:3.11" ++ newline)%string ]};
    {[ "aux" := "sha256:5d0c" ]};
    {[ "stream" := (" ---> Running in 2f6c" ++ newline)%string ]} ].

Definition with_build (outcome : fault + list chunk) (e : Fake.Engine) : Fake.Engine :=
  Fake.mkEngine (Fake.daemon_up e) (Fake.box e) (Fake.image_present e) (Fake.boot e)
    (Fake.halt e) (Fake.output e) outcome (Fake.files e) (Fake.read_only e) (Fake.creations e).

Definition daemon_down : Fake.Engine :=
  Fake.mkEngine false None true ["running"] ["exited"] "ready" (inr []) ∅ false 0.

(** A host whose container is still [created] at the first re-read after its
    start and [dead] at the second. *)
Definition crashing : Fake.Engine :=
  Fake.mkEngine true None true ["created"; "created"; "dead"] ["exited"]
    "Traceback: dsl.txt not found" (inr []) ∅ false 0.

Definition build_refused : fault :=
  BuildError "The command '/bin/sh -c pip install -r requirements.txt' returned a non-zero code: 1"
    build_log_text.

(** A host whose running container takes two seconds to stop. *)
Definition slow_to_stop : Fake.Engine :=
  Fake.mkEngine true (Some (Fake.mkBox 0 CONTAINER_NAME "running" [])) true
    ["running"] ["running"; "running"; "exited"] "ready" (inr []) ∅ false 1.

(** ** Further vocabulary *)

(** The seconds a run has slept. *)
Fixpoint slept (t : list event) : nat :=
  match t with
  | [] => 0
  | ESleep seconds :: rest => seconds + slept rest
  | _ :: rest => slept rest
  end.

Definition is_lookup (e : event) : bool :=
  match e with EGet _ _ => true | _ => false end.
Definition is_write (e : event) : bool :=
  match e with EWrite _ _ _ => true | _ => false end.
Definition is_restart_command (e : event) : bool :=
  match e with ERestart _ _ => true | _ => false end.
Definition is_removal (e : event) : bool :=
  match e with ERemove _ _ => true | _ => false end.
Definition is_build_call (e : event) : bool :=
  match e with EBuild _ _ _ => true | _ => false end.

(** The calls stop can make, and those restart can make. *)
Definition is_stop_event (e : event) : bool :=
  match e with
  | EGet _ _ | EStop _ _ | EReload _ _ | ESleep _ => true
  | _ => false
  end.

Definition is_restart_event (e : event) : bool :=
  match e with
  | EGet _ _ | ERestart _ _ | ESleep _ | EReload _ _ | ELogs _ _ => true
  | _ => false
  end.

(** The calls a polling loop can make. *)
Definition is_poll_event (e : event) : bool :=
  match e with
  | ESleep _ | EReload _ _ | ELogs _ _ => true
  | _ => false
  end.

(** Is the result the 504 of a polling loop? *)
Definition is_timeout (r : res pyval) : bool :=
  match r with
  | Raise (HTTPException status_code _) => Nat.eqb status_code 504
  | _ => false
  end.

(** The path update-data opens for a file name. *)
Definition write_target (cwd filename : string) : string :=
  if startswith_sep filename then filename
  else HOST_DATA_PATH cwd ++ "/" ++ filename.

(** The ["stream"] entries of a build log, and the text they amount to. *)
Definition streams (chunks : list chunk) : list string :=
  omap (fun c : chunk => c !! "stream") chunks.

Fixpoint rendered (lines : list string) : string :=
  match lines with
  | [] => ""
  | line :: rest => strip line ++ newline ++ rendered rest
  end.

(** ** A scripted engine

    A second stand-in for the outside world: a list of canned answers, one
    taken by each call, whatever the call; time passing takes none.  It can
    play any behaviour of an engine, also the ones the fake engine above
    never shows (a container that vanishes, a log fetch that fails). *)
Module Script.

Inductive canned :=
| Fails (f : fault)
| Found (c : Container)
| Text (s : string)
| Done
| Stream (chunks : list chunk).

Definition unexpected : fault := OtherError "unexpected call".

Definition next {A} (pick : canned -> option A) (w : list canned) : (fault + A) * list canned :=
  match w with
  | [] => (inl unexpected, [])
  | Fails f :: rest => (inl f, rest)
  | a :: rest =>
      match pick a with
      | Some x => (inr x, rest)
      | None => (inl unexpected, rest)
      end
  end.

Definition as_done (a : canned) : option unit :=
  match a with Done => Some tt | _ => None end.
Definition as_found (a : canned) : option Container :=
  match a with Found c => Some c | _ => None end.
Definition as_text (a : canned) : option string :=
  match a with Text s => Some s | _ => None end.
Definition as_stream (a : canned) : option (list chunk) :=
  match a with Stream chunks => Some chunks | _ => None end.

#[global] Instance runtime : Runtime (list canned) := {|
  docker_from_env := next as_done;
  client_ping := next as_done;
  containers_get := fun _ => next as_found;
  containers_run := fun _ _ _ => next as_found;
  container_reload := fun _ => next as_text;
  container_logs := fun _ => next as_text;
  container_stop := fun _ => next as_done;
  container_restart := fun _ => next as_done;
  container_remove := fun _ => next as_done;
  images_build := fun _ _ => next as_stream;
  time_sleep := fun _ w => w;
  file_write := fun _ _ => next as_done
|}.

End Script.

(** A container of the scripted engine, in a given state. *)
Definition the_container (s : string) : Container := mkContainer 7 CONTAINER_NAME s.

Definition gone : fault := NotFound "No such container: 7".

(** A host whose containers stay [created] for ever once started, and one
    whose running container ignores a stop. *)
Definition hanging : Fake.Engine :=
  Fake.mkEngine true None true ["created"] ["exited"] "" (inr []) ∅ false 0.

Definition stubborn : Fake.Engine :=
  Fake.mkEngine true (Some (Fake.mkBox 0 CONTAINER_NAME "running" [])) true
    ["running"] [] "ready" (inr []) ∅ false 1.

(** A host whose running container exits as soon as it is restarted. *)
Definition relapsing : Fake.Engine :=
  Fake.mkEngine true (Some (Fake.mkBox 0 CONTAINER_NAME "running" [])) true
    ["exited"] ["exited"] "KeyError: APPKEY" (inr []) ∅ false 1.

(** Does a lookup answer as the engine answered before: the same status, or
    not-found after not-found? *)
Definition same_answer (a : fault + string) (g : fault + Container) : Prop :=
  match a, g with
  | inr s, inr c => status c = s
  | inl f, inl f' => is_NotFound f' = is_NotFound f
  | _, _ => False
  end.

(** ** Properties *)

Lemma eqb_true (s t : string) : (s =? t)%string = true -> s = t.
Proof. apply String.eqb_eq. Qed.

Lemma count_app p (t u : list event) : count p (t ++ u) = count p t + count p u.
Proof. induction t as [|e t IH]; simpl; [reflexivity | rewrite IH; lia]. Qed.

Lemma count_none p q (t : list event) :
  (forall e, p e = true -> q e = false) ->
  forallb p t = true -> count q t = 0.
Proof.
  intros Hpq. induction t as [|e t IH]; cbn; [reflexivity|].
  intros Ht. apply andb_prop in Ht as [He Ht]. rewrite (Hpq e He), (IH Ht). reflexivity.
Qed.

Lemma kind_of_member p (t : list event) e :
  forallb p t = true -> In e t -> p e = true.
Proof. intros Ht He. rewrite forallb_forall in Ht. exact (Ht e He). Qed.

Lemma last_answer_snoc (t : list event) (e : event) :
  last_answer (t ++ [e]) = answer_of e.
Proof.
  induction t as [|e' t IH]; [reflexivity|].
  destruct t as [|e'' t]; [reflexivity|]. exact IH.
Qed.

Lemma start_event_is_harmless (e : event) :
  is_start_event e = true -> touches_container e = false.
Proof. destruct e; cbn; congruence. Qed.

Lemma cleanup_event_creates_nothing (e : event) :
  is_cleanup_event e = true -> is_creation e = false.
Proof. destruct e; cbn; congruence. Qed.


Section Loops.
Context {W : Type} {RT : Runtime W}.

(** The loops, one attempt at a time. *)
Lemma start_poll_step n (c : Container) (w : W) :
  start_poll (S n) c w =
  match container_reload (cid c) (time_sleep 1 w) with
  | (inl f, w1) => (Raise (Fault f), w1, [ESleep 1; EReload (cid c) (inl f)])
  | (inr s, w1) =>
      if is_running s then
        (Ok (PDict [("status", PStr "started_and_running")]), w1, wait_read (cid c) s)
      else if is_failure s then
        match container_logs (cid c) w1 with
        | (inl f, w2) => (Raise (Fault f), w2, wait_read (cid c) s ++ [ELogs (cid c) (inl f)])
        | (inr text, w2) =>
            (Raise (HTTPException 500 (PDict [("status", PStr "container_failed_to_start");
                                              ("logs", PStr text)])),
             w2, wait_read (cid c) s ++ [ELogs (cid c) (inr text)])
        end
      else
        match start_poll n (with_status c s) w1 with
        | (r, w2, t) => (r, w2, wait_read (cid c) s ++ t)
        end
  end.
Proof.
  cbn [start_poll]. unfold sleep, reload, logs, and_then, invoke, ret, raise, is_running, is_failure.
  destruct (container_reload (cid c) (time_sleep 1 w)) as [[f|s] w1]; cbn; [reflexivity|].
  destruct (s =? "running")%string; [reflexivity|].
  destruct ((s =? "exited") || (s =? "dead"))%string.
  - destruct (container_logs (cid c) w1) as [[f|text] w2]; reflexivity.
  - destruct (start_poll n (with_status c s) w1) as [[r w2] t]; reflexivity.
Qed.

Lemma start_poll_shape n (c : Container) (w : W) :
  exists ss ending,
    forallb undecided ss = true /\
    events (start_poll n c w) = flat_map (wait_read (cid c)) ss ++ ending /\
    wait_first_ending (cid c) n (PDict [("status", PStr "started_and_running")])
      "container_failed_to_start" "Container start timed out."
      (List.length ss) ending (result (start_poll n c w)).
Proof.
  revert c w. induction n as [|n IH]; intros c w.
  - exists [], []. repeat split. constructor.
  - rewrite start_poll_step.
    destruct (container_reload (cid c) (time_sleep 1 w)) as [[f|s] w1] eqn:Eread.
    + exists [], [ESleep 1; EReload (cid c) (inl f)]. repeat split.
      constructor. cbn; lia.
    + destruct (is_running s) eqn:Erun.
      { apply eqb_true in Erun. subst s.
        exists [], (wait_read (cid c) "running"). repeat split. constructor. cbn; lia. }
      destruct (is_failure s) eqn:Efail.
      { destruct (container_logs (cid c) w1) as [[f|text] w2].
        - exists [], (wait_read (cid c) s ++ [ELogs (cid c) (inl f)]). repeat split.
          constructor; [cbn; lia | exact Efail].
        - exists [], (wait_read (cid c) s ++ [ELogs (cid c) (inr text)]). repeat split.
          constructor; [cbn; lia | exact Efail]. }
      destruct (IH (with_status c s) w1) as (ss & ending & Hss & Hev & Hend).
      destruct (start_poll n (with_status c s) w1) as [[r w2] t].
      unfold events, result in *. cbn [fst snd cid with_status] in *. subst t.
      exists (s :: ss), ending. repeat split.
      * cbn [forallb]. unfold undecided at 1.
        rewrite Erun, Efail, Hss. reflexivity.
      * inversion Hend; subst; cbn [List.length]; constructor; try lia; assumption.
Qed.

Lemma restart_poll_step n (c : Container) (w : W) :
  restart_poll (S n) c w =
  match container_reload (cid c) (time_sleep 1 w) with
  | (inl f, w1) => (Raise (Fault f), w1, [ESleep 1; EReload (cid c) (inl f)])
  | (inr s, w1) =>
      if is_running s then
        (Ok (PDict [("status", PStr "restarted_and_running")]), w1, wait_read (cid c) s)
      else if is_failure s then
        match container_logs (cid c) w1 with
        | (inl f, w2) => (Raise (Fault f), w2, wait_read (cid c) s ++ [ELogs (cid c) (inl f)])
        | (inr text, w2) =>
            (Raise (HTTPException 500 (PDict [("status", PStr "container_failed_on_restart");
                                              ("logs", PStr text)])),
             w2, wait_read (cid c) s ++ [ELogs (cid c) (inr text)])
        end
      else
        match restart_poll n (with_status c s) w1 with
        | (r, w2, t) => (r, w2, wait_read (cid c) s ++ t)
        end
  end.
Proof.
  cbn [restart_poll]. unfold sleep, reload, logs, and_then, invoke, ret, raise, is_running, is_failure.
  destruct (container_reload (cid c) (time_sleep 1 w)) as [[f|s] w1]; cbn; [reflexivity|].
  destruct (s =? "running")%string; [reflexivity|].
  destruct ((s =? "exited") || (s =? "dead"))%string.
  - destruct (container_logs (cid c) w1) as [[f|text] w2]; reflexivity.
  - destruct (restart_poll n (with_status c s) w1) as [[r w2] t]; reflexivity.
Qed.

Lemma restart_poll_shape n (c : Container) (w : W) :
  exists ss ending,
    forallb undecided ss = true /\
    events (restart_poll n c w) = flat_map (wait_read (cid c)) ss ++ ending /\
    wait_first_ending (cid c) n (PDict [("status", PStr "restarted_and_running")])
      "container_failed_on_restart" "Container restart timed out."
      (List.length ss) ending (result (restart_poll n c w)).
Proof.
  revert c w. induction n as [|n IH]; intros c w.
  - exists [], []. repeat split. constructor.
  - rewrite restart_poll_step.
    destruct (container_reload (cid c) (time_sleep 1 w)) as [[f|s] w1] eqn:Eread.
    + exists [], [ESleep 1; EReload (cid c) (inl f)]. repeat split.
      constructor. cbn; lia.
    + destruct (is_running s) eqn:Erun.
      { apply eqb_true in Erun. subst s.
        exists [], (wait_read (cid c) "running"). repeat split. constructor. cbn; lia. }
      destruct (is_failure s) eqn:Efail.
      { destruct (container_logs (cid c) w1) as [[f|text] w2].
        - exists [], (wait_read (cid c) s ++ [ELogs (cid c) (inl f)]). repeat split.
          constructor; [cbn; lia | exact Efail].
        - exists [], (wait_read (cid c) s ++ [ELogs (cid c) (inr text)]). repeat split.
          constructor; [cbn; lia | exact Efail]. }
      destruct (IH (with_status c s) w1) as (ss & ending & Hss & Hev & Hend).
      destruct (restart_poll n (with_status c s) w1) as [[r w2] t].
      unfold events, result in *. cbn [fst snd cid with_status] in *. subst t.
      exists (s :: ss), ending. repeat split.
      * cbn [forallb]. unfold undecided at 1.
        rewrite Erun, Efail, Hss. reflexivity.
      * inversion Hend; subst; cbn [List.length]; constructor; try lia; assumption.
Qed.

Lemma stop_poll_step n (c : Container) (w : W) :
  stop_poll (S n) c w =
  match container_reload (cid c) w with
  | (inl f, w1) => (Raise (Fault f), w1, [EReload (cid c) (inl f)])
  | (inr s, w1) =>
      if is_exited s then
        (Ok (PDict [("status", PStr "stopped_and_verified")]), w1, [EReload (cid c) (inr s)])
      else
        match stop_poll n (with_status c s) (time_sleep 1 w1) with
        | (r, w2, t) => (r, w2, read_wait (cid c) s ++ t)
        end
  end.
Proof.
  cbn [stop_poll]. unfold sleep, reload, and_then, invoke, ret, raise, is_exited.
  destruct (container_reload (cid c) w) as [[f|s] w1]; cbn; [reflexivity|].
  destruct (s =? "exited")%string; [reflexivity|].
  destruct (stop_poll n (with_status c s) (time_sleep 1 w1)) as [[r w2] t]; reflexivity.
Qed.

Lemma stop_poll_shape n (c : Container) (w : W) :
  exists ss ending,
    forallb (fun s => negb (is_exited s)) ss = true /\
    events (stop_poll n c w) = flat_map (read_wait (cid c)) ss ++ ending /\
    read_first_ending (cid c) n (List.length ss) ending (result (stop_poll n c w)).
Proof.
  revert c w. induction n as [|n IH]; intros c w.
  - exists [], []. repeat split. constructor.
  - rewrite stop_poll_step.
    destruct (container_reload (cid c) w) as [[f|s] w1] eqn:Eread.
    + exists [], [EReload (cid c) (inl f)]. repeat split. constructor. cbn; lia.
    + destruct (is_exited s) eqn:Eex.
      { apply eqb_true in Eex. subst s.
        exists [], [EReload (cid c) (inr "exited")]. repeat split. constructor. cbn; lia. }
      destruct (IH (with_status c s) (time_sleep 1 w1)) as (ss & ending & Hss & Hev & Hend).
      destruct (stop_poll n (with_status c s) (time_sleep 1 w1)) as [[r w2] t].
      unfold events, result in *. cbn [fst snd cid with_status] in *. subst t.
      exists (s :: ss), ending. repeat split.
      * cbn [forallb]. rewrite Eex, Hss. reflexivity.
      * inversion Hend; subst; cbn [List.length]; constructor; lia.
Qed.

(** What the loops call, and in which order. *)
Lemma start_poll_events n (c : Container) (w : W) :
  forallb is_start_event (events (start_poll n c w)) = true /\
  waits_before_each_read (events (start_poll n c w)) = true.
Proof.
  revert c w. induction n as [|n IH]; intros c w; [split; reflexivity|].
  rewrite start_poll_step.
  destruct (container_reload (cid c) (time_sleep 1 w)) as [[f|s] w1]; [split; reflexivity|].
  destruct (is_running s); [split; reflexivity|].
  destruct (is_failure s).
  - destruct (container_logs (cid c) w1) as [[f|text] w2]; split; reflexivity.
  - specialize (IH (with_status c s) w1).
    destruct (start_poll n (with_status c s) w1) as [[r w2] t]. exact IH.
Qed.

Lemma restart_poll_events n (c : Container) (w : W) :
  waits_before_each_read (events (restart_poll n c w)) = true.
Proof.
  revert c w. induction n as [|n IH]; intros c w; [reflexivity|].
  rewrite restart_poll_step.
  destruct (container_reload (cid c) (time_sleep 1 w)) as [[f|s] w1]; [reflexivity|].
  destruct (is_running s); [reflexivity|].
  destruct (is_failure s).
  - destruct (container_logs (cid c) w1) as [[f|text] w2]; reflexivity.
  - specialize (IH (with_status c s) w1).
    destruct (restart_poll n (with_status c s) w1) as [[r w2] t]. exact IH.
Qed.
End Loops.

(** The handlers as equations on the answers of the outside world. *)
Section Equations.
Context {W : Type} {RT : Runtime W}.
Variable cwd : string.

Lemma start_container_eq (w : W) :
  start_container cwd client w =
  match containers_get CONTAINER_NAME w with
  | (inr c, w1) =>
      if is_running (status c)
      then (Ok (PDict [("status", PStr "already_running")]), w1, [EGet CONTAINER_NAME (inr c)])
      else launch cwd [EGet CONTAINER_NAME (inr c)] w1
  | (inl f, w1) =>
      if is_NotFound f
      then launch cwd [EGet CONTAINER_NAME (inl f)] w1
      else (Raise (Fault f), w1, [EGet CONTAINER_NAME (inl f)])
  end.
Proof.
  assert (Hlaunch : forall seen w1,
    (let '(r, w2, t) :=
       try_except
         (let! container := run IMAGE_NAME CONTAINER_NAME (volumes cwd) in
          start_poll 10 container)
         (fun e =>
            if is_ImageNotFound e then
              raise (HTTPException 404
                       (PStr ("Image '" ++ IMAGE_NAME ++ "' not found. Please build it first.")))
            else
              raise (HTTPException 500
                       (PStr ("An unexpected error occurred: " ++ fault_str e)))) w1
     in (r, w2, seen ++ t)) = launch cwd seen w1).
  { intros seen w1. unfold launch, try_except, run, and_then, invoke, raise, start_handler.
    destruct (containers_run IMAGE_NAME CONTAINER_NAME (volumes cwd) w1) as [[f|c] w2].
    - destruct (is_ImageNotFound f); cbn -[start_poll]; rewrite ?app_nil_r; reflexivity.
    - destruct (start_poll 10 c w2) as [[[a|[code d|f]] w3] t]; cbn -[start_poll]; try reflexivity.
      destruct (is_ImageNotFound f); cbn; rewrite app_nil_r; reflexivity. }
  unfold start_container, client, require_client.
  unfold and_then at 1. unfold try_except at 1, get, and_then, invoke, is_running.
  destruct (containers_get CONTAINER_NAME w) as [[f|c] w1].
  - unfold ret, raise. destruct (is_NotFound f); [|reflexivity].
    rewrite <- Hlaunch. cbn -[start_poll try_except].
    destruct (try_except _ _ w1) as [[r w2] t]. reflexivity.
  - unfold ret. destruct (status c =? "running")%string; [reflexivity|].
    rewrite <- Hlaunch. cbn -[start_poll try_except].
    destruct (try_except _ _ w1) as [[r w2] t]. reflexivity.
Qed.

Lemma stop_container_eq (w : W) :
  stop_container client w =
  match containers_get CONTAINER_NAME w with
  | (inl f, w1) => (stop_handler f, w1, [EGet CONTAINER_NAME (inl f)])
  | (inr c, w1) =>
      if is_exited (status c)
      then (Ok (PDict [("status", PStr "already_stopped")]), w1, [EGet CONTAINER_NAME (inr c)])
      else
        match container_stop (cid c) w1 with
        | (inl f, w2) =>
            (stop_handler f, w2, [EGet CONTAINER_NAME (inr c); EStop (cid c) (inl f)])
        | (inr _, w2) =>
            match stop_poll 10 c w2 with
            | (r, w3, t) =>
                (recover stop_handler r, w3,
                 EGet CONTAINER_NAME (inr c) :: EStop (cid c) (inr tt) :: t)
            end
        end
  end.
Proof.
  unfold stop_container, client, require_client, try_except, get, stop, and_then, invoke,
    is_exited, stop_handler.
  destruct (containers_get CONTAINER_NAME w) as [[f|c] w1].
  - destruct (is_NotFound f); reflexivity.
  - unfold ret. destruct (status c =? "exited")%string; [reflexivity|].
    destruct (container_stop (cid c) w1) as [[f|[]] w2].
    + destruct (is_NotFound f); reflexivity.
    + destruct (stop_poll 10 c w2) as [[[a|[code d|f]] w3] t]; cbn -[stop_poll]; try reflexivity.
      destruct (is_NotFound f); cbn; rewrite app_nil_r; reflexivity.
Qed.

Lemma restart_container_eq (w : W) :
  restart_container client w =
  match containers_get CONTAINER_NAME w with
  | (inl f, w1) => (restart_handler f, w1, [EGet CONTAINER_NAME (inl f)])
  | (inr c, w1) =>
      match container_restart (cid c) w1 with
      | (inl f, w2) =>
          (restart_handler f, w2, [EGet CONTAINER_NAME (inr c); ERestart (cid c) (inl f)])
      | (inr _, w2) =>
          match restart_poll 10 c w2 with
          | (r, w3, t) =>
              (recover restart_handler r, w3,
               EGet CONTAINER_NAME (inr c) :: ERestart (cid c) (inr tt) :: t)
          end
      end
  end.
Proof.
  unfold restart_container, client, require_client, try_except, get, restart, and_then, invoke,
    restart_handler.
  destruct (containers_get CONTAINER_NAME w) as [[f|c] w1].
  - destruct (is_NotFound f); reflexivity.
  - destruct (container_restart (cid c) w1) as [[f|[]] w2].
    + destruct (is_NotFound f); reflexivity.
    + destruct (restart_poll 10 c w2) as [[[a|[code d|f]] w3] t]; cbn -[restart_poll]; try reflexivity.
      destruct (is_NotFound f); cbn; rewrite app_nil_r; reflexivity.
Qed.

Lemma launch_events seen (w : W) :
  forallb is_start_event seen = true ->
  forallb is_start_event (events (launch cwd seen w)) = true.
Proof.
  intros Hseen. unfold launch.
  destruct (containers_run IMAGE_NAME CONTAINER_NAME (volumes cwd) w) as [[f|c] w1].
  - unfold events; cbn [snd]. rewrite forallb_app, Hseen. reflexivity.
  - pose proof (start_poll_events 10 c w1) as [Hpoll _].
    destruct (start_poll 10 c w1) as [[r w2] t].
    unfold events in *; cbn [snd] in *. rewrite forallb_app, Hseen. exact Hpoll.
Qed.

Lemma start_container_events (w : W) :
  forallb is_start_event (events (start_container cwd client w)) = true.
Proof.
  rewrite start_container_eq.
  destruct (containers_get CONTAINER_NAME w) as [[f|c] w1].
  - destruct (is_NotFound f); [apply launch_events|]; reflexivity.
  - destruct (is_running (status c)); [|apply launch_events]; reflexivity.
Qed.

Lemma start_container_waits (w : W) :
  waits_before_each_read (events (start_container cwd client w)) = true.
Proof.
  rewrite start_container_eq. unfold launch.
  destruct (containers_get CONTAINER_NAME w) as [[f|c] w1].
  - destruct (is_NotFound f); [|reflexivity].
    destruct (containers_run IMAGE_NAME CONTAINER_NAME (volumes cwd) w1) as [[f'|c] w2];
      [reflexivity|].
    pose proof (start_poll_events 10 c w2) as [_ Hpoll].
    destruct (start_poll 10 c w2) as [[r w3] t]. exact Hpoll.
  - destruct (is_running (status c)); [reflexivity|].
    destruct (containers_run IMAGE_NAME CONTAINER_NAME (volumes cwd) w1) as [[f'|c'] w2];
      [reflexivity|].
    pose proof (start_poll_events 10 c' w2) as [_ Hpoll].
    destruct (start_poll 10 c' w2) as [[r w3] t]. exact Hpoll.
Qed.

Lemma restart_container_waits (w : W) :
  waits_before_each_read (events (restart_container client w)) = true.
Proof.
  rewrite restart_container_eq.
  destruct (containers_get CONTAINER_NAME w) as [[f|c] w1]; [reflexivity|].
  destruct (container_restart (cid c) w1) as [[f|[]] w2]; [reflexivity|].
  pose proof (restart_poll_events 10 c w2) as Hpoll.
  destruct (restart_poll 10 c w2) as [[r w3] t]. exact Hpoll.
Qed.

Lemma remove_old_facts (w : W) :
  forallb is_cleanup_event (events (remove_old w)) = true /\
  (forall u, result (remove_old w) = Ok u -> container_gone (events (remove_old w))).
Proof.
  unfold remove_old, cleanup_handler.
  destruct (containers_get CONTAINER_NAME w) as [[f|c] w1].
  - split; [reflexivity|]. unfold result, events; cbn [fst snd].
    destruct (is_NotFound f) eqn:E; [|discriminate]. intros _ _. constructor. exact E.
  - destruct (container_stop (cid c) w1) as [[f|[]] w2].
    + split; [reflexivity|]. unfold result, events; cbn [fst snd].
      destruct (is_NotFound f) eqn:E; [|discriminate]. intros _ _. constructor. exact E.
    + destruct (container_remove (cid c) w2) as [[f|[]] w3].
      * split; [reflexivity|]. unfold result, events; cbn [fst snd].
        destruct (is_NotFound f) eqn:E; [|discriminate]. intros _ _. constructor. exact E.
      * split; [reflexivity|]. intros _ _. constructor.
Qed.

Lemma rebuild_and_redeploy_eq (w : W) :
  rebuild_and_redeploy cwd client w =
  match remove_old w with
  | (Raise e, w1, t1) => (Raise e, w1, t1)
  | (Ok _, w1, t1) =>
      match images_build (BUILD_CONTEXT_PATH cwd) IMAGE_NAME w1 with
      | (inl f, w2) =>
          (build_handler f, w2, t1 ++ [EBuild (BUILD_CONTEXT_PATH cwd) IMAGE_NAME (inl f)])
      | (inr chunks, w2) =>
          match start_container cwd client w2 with
          | (Ok start_response, w3, t3) =>
              (Ok (PDict [("status", PStr "rebuild_and_restart_successful");
                          ("final_container_status", start_response);
                          ("build_logs", PStr (stream_logs chunks ""))]),
               w3, t1 ++ EBuild (BUILD_CONTEXT_PATH cwd) IMAGE_NAME (inr chunks) :: t3)
          | (Raise e, w3, t3) =>
              (Raise e, w3, t1 ++ EBuild (BUILD_CONTEXT_PATH cwd) IMAGE_NAME (inr chunks) :: t3)
          end
      end
  end.
Proof.
  assert (Hbuild : forall t1 w1,
    (let '(r, w2, t2) :=
       (let! built :=
          try_except
            (let! logs_generator := build (BUILD_CONTEXT_PATH cwd) IMAGE_NAME in
             ret (inr (stream_logs logs_generator "")))
            (fun e =>
               match e with
               | BuildError msg _ =>
                   ret (inl (PHTTPException 500
                               (PDict [("status", PStr "build_failed");
                                       ("logs", PStr msg)])))
               | _ =>
                   raise (HTTPException 500
                            (PStr ("An unexpected error occurred during build: " ++ fault_str e)))
               end) in
        match built with
        | inl returned => ret returned
        | inr build_logs =>
            let! start_response := start_container cwd client in
            ret (PDict [("status", PStr "rebuild_and_restart_successful");
                        ("final_container_status", start_response);
                        ("build_logs", PStr build_logs)])
        end) w1
     in (r, w2, t1 ++ t2)) =
    match images_build (BUILD_CONTEXT_PATH cwd) IMAGE_NAME w1 with
    | (inl f, w2) =>
        (build_handler f, w2, t1 ++ [EBuild (BUILD_CONTEXT_PATH cwd) IMAGE_NAME (inl f)])
    | (inr chunks, w2) =>
        match start_container cwd client w2 with
        | (Ok start_response, w3, t3) =>
            (Ok (PDict [("status", PStr "rebuild_and_restart_successful");
                        ("final_container_status", start_response);
                        ("build_logs", PStr (stream_logs chunks ""))]),
             w3, t1 ++ EBuild (BUILD_CONTEXT_PATH cwd) IMAGE_NAME (inr chunks) :: t3)
        | (Raise e, w3, t3) =>
            (Raise e, w3, t1 ++ EBuild (BUILD_CONTEXT_PATH cwd) IMAGE_NAME (inr chunks) :: t3)
        end
    end).
  { intros t1 w1. unfold and_then, try_except, build, invoke, ret, raise, build_handler.
    destruct (images_build (BUILD_CONTEXT_PATH cwd) IMAGE_NAME w1) as [[f|chunks] w2].
    - destruct f; cbn; rewrite ?app_nil_r; reflexivity.
    - destruct (start_container cwd client w2) as [[[a|e] w3] t3]; cbn; rewrite ?app_nil_r;
        reflexivity. }
  unfold rebuild_and_redeploy, require_client. unfold client at 1. cbv iota.
  unfold and_then at 1.
  assert (Hstep : try_except
                    (let! container := get CONTAINER_NAME in
                     stop container >> remove container)
                    (fun e =>
                       if is_NotFound e then ret tt
                       else raise (HTTPException 500
                                     (PStr ("Error removing old container: " ++ fault_str e)))) w
                  = remove_old w).
  { unfold remove_old, cleanup_handler, try_except, get, stop, remove, and_then, invoke, ret, raise.
    destruct (containers_get CONTAINER_NAME w) as [[f|c] w1].
    - destruct (is_NotFound f); reflexivity.
    - destruct (container_stop (cid c) w1) as [[f|[]] w2].
      + destruct (is_NotFound f); reflexivity.
      + destruct (container_remove (cid c) w2) as [[f|[]] w3]; [|reflexivity].
        destruct (is_NotFound f); reflexivity. }
  rewrite Hstep.
  destruct (remove_old w) as [[[u|e] w1] t1]; [|reflexivity].
  rewrite <- Hbuild.
  match goal with |- context [and_then ?m ?k w1] => destruct (and_then m k w1) as [[r w2] t2] end.
  reflexivity.
Qed.

Lemma update_data_after_failed_write (request : DataUpdateRequest) (w w1 w2 : W) r1 t1 m :
  stop_container client w = (Ok r1, w1, t1) ->
  file_write (path_join (HOST_DATA_PATH cwd) (filename request)) (content request) w1
    = (inl (IOError m), w2) ->
  update_data cwd client request w =
  let attempt := EWrite (path_join (HOST_DATA_PATH cwd) (filename request))
                        (content request) (inl (IOError m)) in
  match restart_container client w2 with
  | (Ok _, w3, t3) =>
      (Raise (HTTPException 500 (PStr ("Failed to write to file: " ++ m))), w3,
       t1 ++ attempt :: t3)
  | (Raise e, w3, t3) => (Raise e, w3, t1 ++ attempt :: t3)
  end.
Proof.
  intros Hstop Hwrite. unfold update_data.
  unfold and_then at 1. rewrite Hstop.
  unfold and_then at 1. unfold try_except at 1, write, invoke. rewrite Hwrite.
  cbn [is_IOError fault_str]. unfold and_then at 1.
  destruct (restart_container client w2) as [[[a|e] w3] t3]; cbn; rewrite ?app_nil_r; reflexivity.
Qed.
End Equations.

Section Footprints.
Context {W : Type} {RT : Runtime W}.
Variable cwd : string.

Lemma start_poll_polls n (c : Container) (w : W) :
  forallb is_poll_event (events (start_poll n c w)) = true.
Proof.
  destruct (start_poll_shape n c w) as (ss & ending & _ & Hev & Hend).
  rewrite Hev, forallb_app. apply andb_true_intro. split.
  - clear. induction ss as [|s ss IH]; [reflexivity | exact IH].
  - inversion Hend; reflexivity.
Qed.

Lemma restart_poll_polls n (c : Container) (w : W) :
  forallb is_poll_event (events (restart_poll n c w)) = true.
Proof.
  destruct (restart_poll_shape n c w) as (ss & ending & _ & Hev & Hend).
  rewrite Hev, forallb_app. apply andb_true_intro. split.
  - clear. induction ss as [|s ss IH]; [reflexivity | exact IH].
  - inversion Hend; reflexivity.
Qed.

Lemma stop_poll_polls n (c : Container) (w : W) :
  forallb is_poll_event (events (stop_poll n c w)) = true.
Proof.
  destruct (stop_poll_shape n c w) as (ss & ending & _ & Hev & Hend).
  rewrite Hev, forallb_app. apply andb_true_intro. split.
  - clear. induction ss as [|s ss IH]; [reflexivity | exact IH].
  - inversion Hend; reflexivity.
Qed.

Lemma poll_event_is_quiet (p : event -> bool) :
  (forall e, is_poll_event e = true -> p e = false) ->
  forall t, forallb is_poll_event t = true -> count p t = 0.
Proof. intros Hp t Ht. exact (count_none _ _ _ Hp Ht). Qed.

Lemma poll_no_creation e : is_poll_event e = true -> is_creation e = false.
Proof. destruct e; cbn; congruence. Qed.
Lemma poll_no_lookup e : is_poll_event e = true -> is_lookup e = false.
Proof. destruct e; cbn; congruence. Qed.
Lemma poll_no_stop e : is_poll_event e = true -> is_stop_command e = false.
Proof. destruct e; cbn; congruence. Qed.
Lemma poll_no_restart e : is_poll_event e = true -> is_restart_command e = false.
Proof. destruct e; cbn; congruence. Qed.
Lemma poll_is_restart_event e : is_poll_event e = true -> is_restart_event e = true.
Proof. destruct e; cbn; congruence. Qed.

Lemma forallb_weaken (p q : event -> bool) (t : list event) :
  (forall e, p e = true -> q e = true) -> forallb p t = true -> forallb q t = true.
Proof.
  intros Hpq. induction t as [|e t IH]; [reflexivity|].
  cbn. intros H. apply andb_prop in H as [He Ht]. rewrite (Hpq e He), (IH Ht). reflexivity.
Qed.
End Footprints.

Section FailureRead.
Context {W : Type} {RT : Runtime W}.

(** A re-read of start's loop that shows a failure state: the logs are asked
    of the engine in the world that re-read left, and its answer decides. *)
Lemma start_poll_failure_read n (c : Container) (w : W) (id : nat) (s : string) :
  In (EReload id (inr s)) (events (start_poll n c w)) -> is_failure s = true ->
  exists before w0 w1,
    container_reload id w0 = (inr s, w1) /\
    events (start_poll n c w) =
      before ++ [EReload id (inr s); ELogs id (container_logs id w1).1] /\
    world (start_poll n c w) = (container_logs id w1).2 /\
    result (start_poll n c w) =
      match (container_logs id w1).1 with
      | inr text => Raise (start_failure text)
      | inl f => Raise (Fault f)
      end.
Proof.
  revert c w. induction n as [|n IH]; intros c w; [intros []|].
  rewrite start_poll_step.
  destruct (container_reload (cid c) (time_sleep 1 w)) as [[f|s0] w1] eqn:Eread.
  { intros [H|[H|[]]]; discriminate. }
  destruct (is_running s0) eqn:Erun.
  { intros [H|[H|[]]] Hfail; [discriminate|]. injection H as _ ->.
    apply eqb_true in Erun. subst s. discriminate. }
  destruct (is_failure s0) eqn:Efail.
  - intros Hin Hfail.
    assert (Hs : id = cid c /\ s = s0).
    { destruct (container_logs (cid c) w1) as [[f|text] w2];
        destruct Hin as [H|[H|[H|[]]]]; try discriminate; injection H as -> ->; split; reflexivity. }
    destruct Hs as [-> ->].
    exists [ESleep 1], (time_sleep 1 w), w1. split; [exact Eread|].
    destruct (container_logs (cid c) w1) as [[f|text] w2]; repeat split.
  - intros Hin Hfail.
    specialize (IH (with_status c s0) w1).
    destruct (start_poll n (with_status c s0) w1) as [[r w2] t].
    unfold events, world, result in *; cbn [fst snd] in *.
    destruct Hin as [H|[H|H]]; [discriminate| |].
    { injection H as _ ->. congruence. }
    destruct (IH H Hfail) as (before & w0 & w1' & Hread & Hev & Hworld & Hres).
    exists (wait_read (cid c) s0 ++ before), w0, w1'.
    split; [exact Hread|]. split; [rewrite Hev; reflexivity|]. split; assumption.
Qed.
End FailureRead.

(** The fake engine, stopped: a stop that returns normally leaves the
    container where a lookup finds it [exited], or leaves none. *)
Lemma fake_play_keeps (b : Fake.Box) :
  Fake.box_id (Fake.play b) = Fake.box_id b /\ Fake.box_name (Fake.play b) = Fake.box_name b.
Proof. unfold Fake.play. destruct (Fake.box_script b); split; reflexivity. Qed.

Lemma fake_stop_poll n (c : Container) (e : Fake.Engine) (b : Fake.Box) :
  Fake.box e = Some b -> Fake.box_id b = cid c ->
  (forall f, result (stop_poll n c e) <> Raise (Fault f)) /\
  (forall r, result (stop_poll n c e) = Ok r ->
     exists b' before,
       Fake.box (world (stop_poll n c e)) = Some b' /\
       Fake.box_name b' = Fake.box_name b /\
       Fake.box_status b' = "exited" /\
       events (stop_poll n c e) = before ++ [EReload (cid c) (inr "exited")]).
Proof.
  revert c e b. induction n as [|n IH]; intros c e b Hbox Hid.
  { split; [intros f; discriminate | intros r; discriminate]. }
  rewrite stop_poll_step.
  assert (Hread : container_reload (cid c) e = (inr (Fake.box_status b), e)).
  { cbn [container_reload Fake.runtime]. unfold Fake.read_status, Fake.find.
    rewrite Hbox, Hid, Nat.eqb_refl. reflexivity. }
  rewrite Hread.
  destruct (is_exited (Fake.box_status b)) eqn:Eex.
  - split; [intros f; discriminate|].
    intros r _. exists b, []. apply eqb_true in Eex.
    repeat split; [exact Hbox | exact Eex | rewrite Eex; reflexivity].
  - assert (Hnext : Fake.box (time_sleep 1 e) = Some (Fake.play b)).
    { cbn [time_sleep Fake.runtime Fake.pass]. unfold Fake.set_box. cbn [Fake.box].
      rewrite Hbox. reflexivity. }
    destruct (fake_play_keeps b) as [Hpid Hpname].
    destruct (IH (with_status c (Fake.box_status b)) (time_sleep 1 e) (Fake.play b) Hnext)
      as [Hfault Hok].
    { rewrite Hpid. exact Hid. }
    destruct (stop_poll n (with_status c (Fake.box_status b)) (time_sleep 1 e)) as [[r0 w2] t].
    unfold result, world, events in *; cbn [fst snd cid with_status] in *.
    split; [exact Hfault|].
    intros r Hr. destruct (Hok r Hr) as (b' & before & Hb' & Hname & Hstatus & Hev).
    exists b', (read_wait (cid c) (Fake.box_status b) ++ before).
    repeat split; [exact Hb' | congruence | exact Hstatus | rewrite Hev; reflexivity].
Qed.

Lemma fake_stop_is_stable (e : Fake.Engine) (r : pyval) :
  result (stop_container client e) = Ok r ->
  exists a,
    last_answer (events (stop_container client e)) = Some a /\
    same_answer a (containers_get CONTAINER_NAME (world (stop_container client e))).1.
Proof.
  rewrite stop_container_eq.
  cbn [containers_get container_stop Fake.runtime].
  destruct (Fake.lookup_by_name CONTAINER_NAME e) as [[f|c] w1] eqn:Hlook.
  { assert (w1 = e) as ->.
    { revert Hlook. unfold Fake.lookup_by_name. destruct (Fake.box e) as [b|];
        [destruct (Fake.box_name b =? CONTAINER_NAME)%string|]; intros H; congruence. }
    intros _. exists (inl f). split; [reflexivity|].
    unfold world; cbn [fst snd]. rewrite Hlook. reflexivity. }
  assert (Hb : exists b, Fake.box e = Some b /\ c = Fake.handle b /\ w1 = e /\
                         (Fake.box_name b =? CONTAINER_NAME)%string = true).
  { revert Hlook. unfold Fake.lookup_by_name. destruct (Fake.box e) as [b|]; [|discriminate].
    destruct (Fake.box_name b =? CONTAINER_NAME)%string eqn:Hname; [|discriminate].
    intros H. injection H as <- <-. exists b. repeat split. exact Hname. }
  destruct Hb as (b & Hbox & -> & -> & Hname).
  destruct (is_exited (status (Fake.handle b))) eqn:Eex.
  { intros _. exists (inr (status (Fake.handle b))). split; [reflexivity|].
    unfold world; cbn [fst snd]. rewrite Hlook. reflexivity. }
  assert (Hstop : exists e' b',
    Fake.do_stop (cid (Fake.handle b)) e = (inr tt, e') /\ Fake.box e' = Some b' /\
    Fake.box_id b' = Fake.box_id b /\ Fake.box_name b' = Fake.box_name b).
  { unfold Fake.do_stop, Fake.find. rewrite Hbox. cbn [cid Fake.handle]. rewrite Nat.eqb_refl.
    destruct (Fake.is_active (Fake.box_status b)).
    - eexists _, _. split; [reflexivity|]. split; [reflexivity|].
      exact (fake_play_keeps (Fake.mkBox (Fake.box_id b) (Fake.box_name b)
                                (Fake.box_status b) (Fake.halt e))).
    - exists e, b. repeat split. exact Hbox. }
  destruct Hstop as (e' & b' & -> & Hbox' & Hid' & Hname').
  destruct (fake_stop_poll 10 (Fake.handle b) e' b' Hbox' Hid') as [Hfault Hok].
  destruct (stop_poll 10 (Fake.handle b) e') as [[[a|[code d|f]] w3] t];
    unfold result, world, events in *; cbn [fst snd recover] in *.
  - intros _. destruct (Hok a eq_refl) as (b'' & before & Hb'' & Hname'' & Hstatus & ->).
    exists (inr "exited"). split.
    + change (EGet CONTAINER_NAME (inr (Fake.handle b)) :: EStop (cid (Fake.handle b)) (inr ())
                :: before ++ [EReload (cid (Fake.handle b)) (inr "exited")])
        with ((EGet CONTAINER_NAME (inr (Fake.handle b)) :: EStop (cid (Fake.handle b)) (inr ())
                 :: before) ++ [EReload (cid (Fake.handle b)) (inr "exited")]).
      apply last_answer_snoc.
    + unfold Fake.lookup_by_name. rewrite Hb''.
      replace (Fake.box_name b'' =? CONTAINER_NAME)%string with true by congruence.
      exact Hstatus.
  - discriminate.
  - exfalso. exact (Hfault f eq_refl).
Qed.

(** C1, as amended.  Once its command has been accepted, each of the three
    operations polls at most ten times.  Start and restart wait one second
    and then re-read the state on every attempt, so that in a whole start or
    restart every re-read directly follows a wait of one second.  They answer
    with their success value as soon as the state read is [running]; as soon
    as it is [exited] or [dead] they fetch the logs and raise their failure
    detail with the text fetched; after ten undecided attempts they raise
    their 504.  Stop re-reads the state first and waits one second only after
    a read that did not show [exited]; it has no failure state, answers with
    its success value as soon as the state read is [exited] and raises its 504
    after ten such attempts.  When a re-read or the log fetch raises, polling
    ends there and the operation answers with what its except clauses make of
    that exception. *)
Theorem polling_loops_are_bounded {W : Type} {RT : Runtime W} (cwd : string) (w : W) :
  (forall c,
     In (ERun IMAGE_NAME CONTAINER_NAME (volumes cwd) (inr c))
        (events (start_container cwd client w)) ->
     exists g ss ending polled,
       events (start_container cwd client w) =
         EGet CONTAINER_NAME g :: ERun IMAGE_NAME CONTAINER_NAME (volumes cwd) (inr c)
         :: flat_map (wait_read (cid c)) ss ++ ending /\
       forallb undecided ss = true /\
       wait_first_ending (cid c) 10 (PDict [("status", PStr "started_and_running")])
         "container_failed_to_start" "Container start timed out."
         (List.length ss) ending polled /\
       result (start_container cwd client w) = recover start_handler polled) /\
  (forall id,
     In (ERestart id (inr tt)) (events (restart_container client w)) ->
     exists c ss ending polled,
       cid c = id /\
       events (restart_container client w) =
         EGet CONTAINER_NAME (inr c) :: ERestart id (inr tt)
         :: flat_map (wait_read id) ss ++ ending /\
       forallb undecided ss = true /\
       wait_first_ending id 10 (PDict [("status", PStr "restarted_and_running")])
         "container_failed_on_restart" "Container restart timed out."
         (List.length ss) ending polled /\
       result (restart_container client w) = recover restart_handler polled) /\
  (forall id,
     In (EStop id (inr tt)) (events (stop_container client w)) ->
     exists c ss ending polled,
       cid c = id /\
       events (stop_container client w) =
         EGet CONTAINER_NAME (inr c) :: EStop id (inr tt)
         :: flat_map (read_wait id) ss ++ ending /\
       forallb (fun s => negb (is_exited s)) ss = true /\
       read_first_ending id 10 (List.length ss) ending polled /\
       result (stop_container client w) = recover stop_handler polled) /\
  waits_before_each_read (events (start_container cwd client w)) = true /\
  waits_before_each_read (events (restart_container client w)) = true.
Proof.
  split; [|split; [|split; [|split]]].
  - intros c. rewrite start_container_eq.
    assert (Hlaunch : forall g w1,
      In (ERun IMAGE_NAME CONTAINER_NAME (volumes cwd) (inr c))
         (events (launch cwd [EGet CONTAINER_NAME g] w1)) ->
      exists g' ss ending polled,
        events (launch cwd [EGet CONTAINER_NAME g] w1) =
          EGet CONTAINER_NAME g' :: ERun IMAGE_NAME CONTAINER_NAME (volumes cwd) (inr c)
          :: flat_map (wait_read (cid c)) ss ++ ending /\
        forallb undecided ss = true /\
        wait_first_ending (cid c) 10 (PDict [("status", PStr "started_and_running")])
          "container_failed_to_start" "Container start timed out."
          (List.length ss) ending polled /\
        result (launch cwd [EGet CONTAINER_NAME g] w1) = recover start_handler polled).
    { intros g w1. unfold launch.
      destruct (containers_run IMAGE_NAME CONTAINER_NAME (volumes cwd) w1) as [[f|c'] w2].
      - unfold events; cbn [snd]. intros [H|[H|[]]]; discriminate.
      - destruct (start_poll_shape 10 c' w2) as (ss & ending & Hss & Hev & Hend).
        pose proof (start_poll_polls 10 c' w2) as Hpoll.
        destruct (start_poll 10 c' w2) as [[r w3] t].
        unfold events, result in *; cbn [fst snd] in *.
        intros [H|[H|H]]; [discriminate| |].
        + injection H as <-. exists g, ss, ending, r. subst t. repeat split; assumption.
        + apply (kind_of_member _ _ _ Hpoll) in H. discriminate. }
    destruct (containers_get CONTAINER_NAME w) as [[f|c0] w1].
    + destruct (is_NotFound f); [apply Hlaunch|]. intros [H|[]]. discriminate.
    + destruct (is_running (status c0)); [|apply Hlaunch]. intros [H|[]]. discriminate.
  - intros id. rewrite restart_container_eq.
    destruct (containers_get CONTAINER_NAME w) as [[f|c] w1].
    { intros [H|[]]. discriminate. }
    destruct (container_restart (cid c) w1) as [[f|[]] w2].
    { intros [H|[H|[]]]; discriminate. }
    destruct (restart_poll_shape 10 c w2) as (ss & ending & Hss & Hev & Hend).
    pose proof (restart_poll_polls 10 c w2) as Hpoll.
    destruct (restart_poll 10 c w2) as [[r w3] t].
    unfold events, result in *; cbn [fst snd] in *.
    intros [H|[H|H]]; [discriminate| |].
    + injection H as <-. exists c, ss, ending, r. subst t. repeat split; assumption.
    + apply (kind_of_member _ _ _ Hpoll) in H. discriminate.
  - intros id. rewrite stop_container_eq.
    destruct (containers_get CONTAINER_NAME w) as [[f|c] w1].
    { intros [H|[]]. discriminate. }
    destruct (is_exited (status c)).
    { intros [H|[]]. discriminate. }
    destruct (container_stop (cid c) w1) as [[f|[]] w2].
    { intros [H|[H|[]]]; discriminate. }
    destruct (stop_poll_shape 10 c w2) as (ss & ending & Hss & Hev & Hend).
    pose proof (stop_poll_polls 10 c w2) as Hpoll.
    destruct (stop_poll 10 c w2) as [[r w3] t].
    unfold events, result in *; cbn [fst snd] in *.
    intros [H|[H|H]]; [discriminate| |].
    + injection H as <-. exists c, ss, ending, r. subst t. repeat split; assumption.
    + apply (kind_of_member _ _ _ Hpoll) in H. discriminate.
  - apply start_container_waits.
  - apply restart_container_waits.
Qed.

(** Three runs that poll to the end or to a failure: a start whose container
    dies at the second re-read, a restart whose container exits at once, and
    a stop of a container that stays [created] through all ten re-reads. *)
Lemma polling_loops_are_bounded_witness :
  let started := start_container cwd0 client crashing in
  let restarted := restart_container client relapsing in
  let stopped := stop_container client never_started in
  In (ERun IMAGE_NAME CONTAINER_NAME (volumes cwd0) (inr (mkContainer 0 CONTAINER_NAME "created")))
     (events started) /\
  In (ERestart 0 (inr tt)) (events restarted) /\
  In (EStop 0 (inr tt)) (events stopped) /\
  (exists g ss ending polled,
     events started =
       EGet CONTAINER_NAME g
       :: ERun IMAGE_NAME CONTAINER_NAME (volumes cwd0) (inr (mkContainer 0 CONTAINER_NAME "created"))
       :: flat_map (wait_read 0) ss ++ ending /\
     forallb undecided ss = true /\
     wait_first_ending 0 10 (PDict [("status", PStr "started_and_running")])
       "container_failed_to_start" "Container start timed out." (List.length ss) ending polled /\
     result started = recover start_handler polled) /\
  (exists c ss ending polled,
     cid c = 0 /\
     events stopped =
       EGet CONTAINER_NAME (inr c) :: EStop 0 (inr tt) :: flat_map (read_wait 0) ss ++ ending /\
     forallb (fun s => negb (is_exited s)) ss = true /\
     read_first_ending 0 10 (List.length ss) ending polled /\
     result stopped = recover stop_handler polled) /\
  events stopped =
    EGet CONTAINER_NAME (inr (mkContainer 0 CONTAINER_NAME "created")) :: EStop 0 (inr tt)
    :: flat_map (read_wait 0) (repeat "created" 10) /\
  result stopped = Raise (HTTPException 504 (PStr "Container stop timed out.")) /\
  result restarted =
    Raise (HTTPException 500 (PDict [("status", PStr "container_failed_on_restart");
                                     ("logs", PStr "KeyError: APPKEY")])).
Proof.
  intros started restarted stopped.
  assert (H1 : In (ERun IMAGE_NAME CONTAINER_NAME (volumes cwd0)
                     (inr (mkContainer 0 CONTAINER_NAME "created"))) (events started)).
  { vm_compute. right. left. reflexivity. }
  assert (H2 : In (ERestart 0 (inr tt)) (events restarted)).
  { vm_compute. right. left. reflexivity. }
  assert (H3 : In (EStop 0 (inr tt)) (events stopped)).
  { vm_compute. right. left. reflexivity. }
  destruct (polling_loops_are_bounded cwd0 crashing) as (Hstart & _ & _ & _ & _).
  destruct (polling_loops_are_bounded cwd0 never_started) as (_ & _ & Hstop & _ & _).
  split; [exact H1|]. split; [exact H2|]. split; [exact H3|].
  split; [exact (Hstart _ H1)|]. split; [exact (Hstop _ H3)|].
  split; [vm_compute; reflexivity|]. split; vm_compute; reflexivity.
Defined.

(** C1, as stated, fails for stop: a container that is running and stops at
    once is found [exited] by a first re-read that no wait precedes. *)
Lemma stop_reads_before_waiting :
  let run := stop_container client (Fake.with_box "running" Fake.fresh) in
  result run = Ok (PDict [("status", PStr "stopped_and_verified")]) /\
  events run =
    [EGet CONTAINER_NAME (inr (mkContainer 0 CONTAINER_NAME "running"));
     EStop 0 (inr tt);
     EReload 0 (inr "exited")] /\
  waits_before_each_read (events run) = false.
Proof. vm_compute. repeat split. Qed.

(** C2.  When the lookup finds the container running, start answers
    [already_running] after that lookup alone; called a second time in the
    same situation it does so again, and the two calls create no container:
    whatever had been created before is all that was ever created. *)
Theorem start_is_idempotent_when_running {W : Type} {RT : Runtime W}
    (cwd : string) (w w1 w2 : W) (c c' : Container) :
  containers_get CONTAINER_NAME w = (inr c, w1) -> status c = "running" ->
  containers_get CONTAINER_NAME w1 = (inr c', w2) -> status c' = "running" ->
  let first := start_container cwd client w in
  let second := start_container cwd client (world first) in
  first = (Ok (PDict [("status", PStr "already_running")]), w1, [EGet CONTAINER_NAME (inr c)]) /\
  second = (Ok (PDict [("status", PStr "already_running")]), w2, [EGet CONTAINER_NAME (inr c')]) /\
  forall past, count is_creation (past ++ events first ++ events second) = count is_creation past.
Proof.
  intros Hget Hrun Hget' Hrun' first second.
  assert (Hfirst : first = (Ok (PDict [("status", PStr "already_running")]), w1,
                            [EGet CONTAINER_NAME (inr c)])).
  { unfold first. rewrite start_container_eq, Hget. unfold is_running. rewrite Hrun. reflexivity. }
  assert (Hsecond : second = (Ok (PDict [("status", PStr "already_running")]), w2,
                              [EGet CONTAINER_NAME (inr c')])).
  { unfold second. rewrite Hfirst. unfold world; cbn [fst snd].
    rewrite start_container_eq, Hget'. unfold is_running. rewrite Hrun'. reflexivity. }
  split; [exact Hfirst|]. split; [exact Hsecond|].
  intros past. rewrite Hfirst, Hsecond. unfold events; cbn [snd].
  rewrite count_app. cbn. lia.
Qed.

(** On a host where start has created the container once and left it
    running, two further calls answer [already_running] and the engine has
    still created one container. *)
Lemma start_is_idempotent_when_running_witness :
  let first := start_container cwd0 client started_once in
  let second := start_container cwd0 client (world first) in
  Fake.creations started_once = 1 /\
  result first = Ok (PDict [("status", PStr "already_running")]) /\
  result second = Ok (PDict [("status", PStr "already_running")]) /\
  count is_creation (events first ++ events second) = 0 /\
  Fake.creations (world second) = 1.
Proof.
  intros first second.
  assert (Hget : containers_get CONTAINER_NAME started_once =
                 (inr (mkContainer 0 CONTAINER_NAME "running"), started_once))
    by (vm_compute; reflexivity).
  destruct (start_is_idempotent_when_running cwd0 started_once started_once started_once
              (mkContainer 0 CONTAINER_NAME "running") (mkContainer 0 CONTAINER_NAME "running")
              Hget eq_refl Hget eq_refl) as (H1 & H2 & H3).
  fold first in H1, H2, H3. fold second in H2, H3.
  split; [reflexivity|].
  split; [rewrite H1; reflexivity|].
  split; [rewrite H2; reflexivity|].
  split; [exact (H3 [])|].
  rewrite H2. reflexivity.
Defined.

(** C3, as stated, fails when the logs cannot be fetched.  The container is
    read [dead] at the first re-read and the log fetch raises: start raises the
    generic 500 made of that exception, not [container_failed_to_start]. *)
Lemma start_failure_without_logs_is_generic :
  let unreadable := OtherError "'utf-8' codec can't decode byte 0xff in position 0: invalid start byte" in
  let script := [Script.Fails gone; Script.Found (the_container "created");
                 Script.Text "dead"; Script.Fails unreadable] in
  let run := start_container cwd0 client script in
  events run = [EGet CONTAINER_NAME (inl gone);
                ERun IMAGE_NAME CONTAINER_NAME (volumes cwd0) (inr (the_container "created"));
                ESleep 1; EReload 7 (inr "dead"); ELogs 7 (inl unreadable)] /\
  result run =
    Raise (HTTPException 500
             (PStr "An unexpected error occurred: 'utf-8' codec can't decode byte 0xff in position 0: invalid start byte")) /\
  forall text, result run <> Raise (start_failure text).
Proof. vm_compute. repeat split. discriminate. Qed.

(** C3, as amended.  If, during a start, a re-read of the state shows [exited]
    or [dead], the logs are asked of the engine right then, in the world that
    re-read left, and nothing is called afterwards.  When the engine answers
    with the log text, start raises the 500 [container_failed_to_start]
    carrying exactly that text; when the fetch raises, start raises what its
    except clauses make of that exception.  In neither case does it raise the
    504 of the timeout. *)
Theorem start_reports_failure_state {W : Type} {RT : Runtime W}
    (cwd : string) (w : W) (id : nat) (s : string) :
  let run := start_container cwd client w in
  In (EReload id (inr s)) (events run) -> is_failure s = true ->
  exists before w0 w1,
    container_reload id w0 = (inr s, w1) /\
    events run = before ++ [EReload id (inr s); ELogs id (container_logs id w1).1] /\
    world run = (container_logs id w1).2 /\
    result run = match (container_logs id w1).1 with
                 | inr text => Raise (start_failure text)
                 | inl f => start_handler f
                 end /\
    result run <> Raise start_timeout.
Proof.
  cbv zeta. intros Hin Hfail. revert Hin.
  assert (Hlaunch : forall g w1,
    In (EReload id (inr s)) (events (launch cwd [EGet CONTAINER_NAME g] w1)) ->
    exists before w0 w1',
      container_reload id w0 = (inr s, w1') /\
      events (launch cwd [EGet CONTAINER_NAME g] w1) =
        before ++ [EReload id (inr s); ELogs id (container_logs id w1').1] /\
      world (launch cwd [EGet CONTAINER_NAME g] w1) = (container_logs id w1').2 /\
      result (launch cwd [EGet CONTAINER_NAME g] w1) =
        match (container_logs id w1').1 with
        | inr text => Raise (start_failure text)
        | inl f => start_handler f
        end /\
      result (launch cwd [EGet CONTAINER_NAME g] w1) <> Raise start_timeout).
  { intros g w1. unfold launch.
    destruct (containers_run IMAGE_NAME CONTAINER_NAME (volumes cwd) w1) as [[f|c] w2].
    - unfold events; cbn [snd]. intros [H|[H|[]]]; discriminate.
    - pose proof (start_poll_failure_read 10 c w2 id s) as Hpoll.
      destruct (start_poll 10 c w2) as [[r w3] t].
      unfold events, result, world in *; cbn [fst snd] in *.
      intros [H|[H|H]]; [discriminate | discriminate |].
      destruct (Hpoll H Hfail) as (before & w0 & w1' & Hread & -> & -> & ->).
      exists (EGet CONTAINER_NAME g :: ERun IMAGE_NAME CONTAINER_NAME (volumes cwd) (inr c)
                :: before), w0, w1'.
      split; [exact Hread|]. split; [reflexivity|]. split; [reflexivity|].
      destruct (container_logs id w1').1 as [f|text]; cbn [recover]; split; try reflexivity.
      + unfold start_handler. destruct (is_ImageNotFound f); discriminate.
      + discriminate. }
  rewrite start_container_eq.
  destruct (containers_get CONTAINER_NAME w) as [[f|c] w1].
  - destruct (is_NotFound f); [apply Hlaunch|]. intros [H|[]]. discriminate.
  - destruct (is_running (status c)); [|apply Hlaunch]. intros [H|[]]. discriminate.
Qed.

(** A container that dies while it comes up: the second re-read shows
    [dead], the engine hands out what the container logged, and start raises
    the failure with that very text, not the timeout. *)
Lemma start_reports_failure_state_witness :
  let run := start_container cwd0 client crashing in
  In (EReload 0 (inr "dead")) (events run) /\
  is_failure "dead" = true /\
  (exists before w0 w1,
     container_reload 0 w0 = (inr "dead", w1) /\
     events run = before ++ [EReload 0 (inr "dead"); ELogs 0 (container_logs 0 w1).1] /\
     world run = (container_logs 0 w1).2 /\
     result run = match (container_logs 0 w1).1 with
                  | inr text => Raise (start_failure text)
                  | inl f => start_handler f
                  end /\
     result run <> Raise start_timeout) /\
  Fake.output crashing = "Traceback: dsl.txt not found" /\
  (container_logs 0 (world run)).1 = inr "Traceback: dsl.txt not found" /\
  result run = Raise (start_failure "Traceback: dsl.txt not found").
Proof.
  intros run.
  assert (Hin : In (EReload 0 (inr "dead")) (events run)).
  { vm_compute. do 5 right. left. reflexivity. }
  split; [exact Hin|]. split; [reflexivity|].
  split; [exact (start_reports_failure_state cwd0 crashing 0 "dead" Hin eq_refl)|].
  split; [reflexivity|]. split; vm_compute; reflexivity.
Defined.

(** C10.  When the lookup finds the container in a state other than
    [running], start goes on to create and run a container under the same
    fixed name: the create-and-run call directly follows the lookup, and the
    whole start never stops, restarts or removes a container.  If the engine
    refuses the creation with anything but image-not-found (a name conflict,
    for one), start ends there with the generic 500. *)
Theorem start_does_not_replace_a_stopped_container {W : Type} {RT : Runtime W}
    (cwd : string) (w w1 w2 : W) (c : Container) (x : fault + Container) :
  containers_get CONTAINER_NAME w = (inr c, w1) -> is_running (status c) = false ->
  containers_run IMAGE_NAME CONTAINER_NAME (volumes cwd) w1 = (x, w2) ->
  let run := start_container cwd client w in
  (exists rest,
     events run = EGet CONTAINER_NAME (inr c)
                  :: ERun IMAGE_NAME CONTAINER_NAME (volumes cwd) x :: rest) /\
  count touches_container (events run) = 0 /\
  (forall f, x = inl f -> is_ImageNotFound f = false ->
     run = (Raise (HTTPException 500 (PStr ("An unexpected error occurred: " ++ fault_str f))),
            w2,
            [EGet CONTAINER_NAME (inr c);
             ERun IMAGE_NAME CONTAINER_NAME (volumes cwd) (inl f)])).
Proof.
  intros Hget Hstate Hrun run.
  split; [|split].
  - unfold run. rewrite start_container_eq, Hget, Hstate. unfold launch. rewrite Hrun.
    destruct x as [f|c'].
    + exists []. reflexivity.
    + destruct (start_poll 10 c' w2) as [[r w3] t]. exists t. reflexivity.
  - apply (count_none is_start_event); [exact start_event_is_harmless|].
    apply start_container_events.
  - intros f -> Himage. unfold run.
    rewrite start_container_eq, Hget, Hstate. unfold launch. rewrite Hrun.
    unfold start_handler. rewrite Himage. reflexivity.
Qed.

(** With an exited container in place the fake engine refuses the name; start
    raises the generic 500 and the old container is still there, still
    exited. *)
Lemma start_does_not_replace_a_stopped_container_witness :
  let run := start_container cwd0 client stopped_earlier in
  Fake.box (world run) = Fake.box stopped_earlier /\
  result run =
    Raise (HTTPException 500
             (PStr "An unexpected error occurred: 409 Client Error: Conflict (container name already in use)")) /\
  count touches_container (events run) = 0.
Proof.
  intros run.
  assert (Hget : containers_get CONTAINER_NAME stopped_earlier =
                 (inr (mkContainer 0 CONTAINER_NAME "exited"), stopped_earlier))
    by (vm_compute; reflexivity).
  assert (Hrun : containers_run IMAGE_NAME CONTAINER_NAME (volumes cwd0) stopped_earlier =
                 (inl (OtherError "409 Client Error: Conflict (container name already in use)"),
                  stopped_earlier))
    by (vm_compute; reflexivity).
  destruct (start_does_not_replace_a_stopped_container cwd0 _ _ _ _ _ Hget eq_refl Hrun)
    as (_ & Hcount & Hfail).
  fold run in Hcount, Hfail. specialize (Hfail _ eq_refl eq_refl).
  split; [rewrite Hfail; reflexivity|].
  split; [rewrite Hfail; reflexivity|].
  exact Hcount.
Defined.

(** C4.  If the build step of a rebuild raises, the failed build is the last
    call of the run: no container is created, and the calls before it are
    those of step 1 and ended with the engine reporting the container absent
    or removed. *)
Theorem failed_build_starts_nothing {W : Type} {RT : Runtime W}
    (cwd : string) (w : W) (path tag : string) (f : fault) :
  let run := rebuild_and_redeploy cwd client w in
  In (EBuild path tag (inl f)) (events run) ->
  count is_creation (events run) = 0 /\
  exists cleanup,
    container_gone cleanup /\
    events run = cleanup ++ [EBuild (BUILD_CONTEXT_PATH cwd) IMAGE_NAME (inl f)].
Proof.
  intros run. unfold run. clear run. rewrite rebuild_and_redeploy_eq.
  pose proof (remove_old_facts w) as [Hkind Hgone].
  destruct (remove_old w) as [[[u|e] w1] t1]; unfold events, result in *; cbn [fst snd] in *.
  - destruct (images_build (BUILD_CONTEXT_PATH cwd) IMAGE_NAME w1) as [[f'|chunks] w2].
    + cbn [snd]. intros H. apply in_app_or in H as [H|[H|[]]].
      { apply (kind_of_member _ _ _ Hkind) in H. discriminate. }
      injection H as _ _ ->. split.
      * rewrite count_app. rewrite (count_none _ _ _ cleanup_event_creates_nothing Hkind).
        reflexivity.
      * exists t1. split; [exact (Hgone u eq_refl) | reflexivity].
    + pose proof (start_container_events cwd w2) as Hstart.
      destruct (start_container cwd client w2) as [[[a|e] w3] t3];
        unfold events in Hstart; cbn [snd] in *; intros H;
        (apply in_app_or in H as [H|[H|H]];
         [ apply (kind_of_member _ _ _ Hkind) in H; discriminate
         | discriminate
         | apply (kind_of_member _ _ _ Hstart) in H; discriminate ]).
  - intros H. apply (kind_of_member _ _ _ Hkind) in H. discriminate.
Qed.

(** A running container, a build that fails: the container is stopped and
    removed, the build raises, nothing is created and the host is left
    without the container. *)
Lemma failed_build_starts_nothing_witness :
  let host := with_build (inl build_refused) (Fake.with_box "running" Fake.fresh) in
  let run := rebuild_and_redeploy cwd0 client host in
  In (EBuild cwd0 IMAGE_NAME (inl build_refused)) (events run) /\
  count is_creation (events run) = 0 /\
  Fake.box (world run) = None /\
  Fake.creations (world run) = 0.
Proof.
  intros host run.
  assert (Hin : In (EBuild cwd0 IMAGE_NAME (inl build_refused)) (events run)).
  { vm_compute. do 3 right. left. reflexivity. }
  destruct (failed_build_starts_nothing cwd0 host cwd0 IMAGE_NAME build_refused Hin) as [Hcount _].
  fold run in Hcount.
  split; [exact Hin|]. split; [exact Hcount|]. split; vm_compute; reflexivity.
Defined.

(** C5, evaluated where it breaks.  The data directory is read-only.  With no
    container on the host, stop answers [not_found_or_already_stopped], the
    write raises [IOError], restart is called and raises its own 404, and
    that 404 is what update-data reports: the write error is lost.  (With a
    container that restart brings back up, the write error is reported.) *)
Theorem update_data_reports_restart_error :
  let request := mkRequest "dsl.txt" "{}" in
  let target := "/srv/manager/app/trading_data/dsl.txt" in
  let refused := IOError "[Errno 30] Read-only file system: '/srv/manager/app/trading_data/dsl.txt'" in
  let absent := NotFound "No such container: my-trading-bot-managed" in
  let lost := update_data cwd0 client request (unwritable Fake.fresh) in
  let kept := update_data cwd0 client request (unwritable started_once) in
  result lost = Raise (HTTPException 404 (PStr "Container not found.")) /\
  events lost = [EGet CONTAINER_NAME (inl absent);
                 EWrite target "{}" (inl refused);
                 EGet CONTAINER_NAME (inl absent)] /\
  result kept =
    Raise (HTTPException 500
             (PStr "Failed to write to file: [Errno 30] Read-only file system: '/srv/manager/app/trading_data/dsl.txt'")) /\
  count (fun e => match e with ERestart _ _ => true | _ => false end) (events kept) = 1.
Proof. vm_compute. repeat split. Qed.

(** C7, evaluated where it breaks.  When the build raises [BuildError], the
    handler ends normally: what it hands back is an [HTTPException] object as
    an ordinary value, carrying the failure reason of the exception and not
    its build log; nothing is raised.  Any other build fault is raised as a
    500, and a build that succeeds leads to the response with the accumulated
    stream text. *)
Theorem build_error_is_returned_not_raised :
  let broken := rebuild_and_redeploy cwd0 client (with_build (inl build_refused) Fake.fresh) in
  let infra := rebuild_and_redeploy cwd0 client
                 (with_build (inl (OtherError "Connection aborted.")) Fake.fresh) in
  let built := rebuild_and_redeploy cwd0 client (with_build (inr build_log_text) Fake.fresh) in
  result broken =
    Ok (PHTTPException 500
          (PDict [("status", PStr "build_failed");
                  ("logs", PStr "The command '/bin/sh -c pip install -r requirements.txt' returned a non-zero code: 1")])) /\
  result infra =
    Raise (HTTPException 500
             (PStr "An unexpected error occurred during build: Connection aborted.")) /\
  result built =
    Ok (PDict [("status", PStr "rebuild_and_restart_successful");
               ("final_container_status", PDict [("status", PStr "started_and_running")]);
               ("build_logs", PStr ("Step 1/2 : FROM python:3.11" ++ newline ++
                                    "---> Running in 2f6c" ++ newline))]).
Proof. vm_compute. repeat split. Qed.

(** C9, evaluated where it breaks.  An absolute file name replaces the data
    directory in the joined path: the write goes to that absolute path,
    outside the data directory, and succeeds. *)
Theorem update_data_writes_outside_data_directory :
  let request := mkRequest "/etc/cron.d/job" "* * * * * root sh" in
  let run := update_data cwd0 client request started_once in
  path_join (HOST_DATA_PATH cwd0) (filename request) = "/etc/cron.d/job" /\
  In (EWrite "/etc/cron.d/job" "* * * * * root sh" (inr tt)) (events run) /\
  Fake.files (world run) !! "/etc/cron.d/job" = Some "* * * * * root sh" /\
  is_under (HOST_DATA_PATH cwd0) "/etc/cron.d/job" = false /\
  result run = Ok (PDict [("status", PStr "data_updated_and_restarted");
                          ("filename", PStr "/etc/cron.d/job")]).
Proof.
  vm_compute. split; [reflexivity|]. split; [|repeat split].
  do 3 right. left. reflexivity.
Qed.

(** C8.  If the connection attempt at start-up raised, [client] is [None], and
    then each of the six operations raises the 503 at once: no call to the
    outside world is made, no file is written and the world is as it was. *)
Theorem degraded_mode_fails_every_operation {W : Type} {RT : Runtime W}
    (cwd : string) (w0 : W) (f : fault) :
  In (EFromEnv (inl f)) (events (connect w0)) \/ In (EPing (inl f)) (events (connect w0)) ->
  result (connect w0) = Ok None /\
  forall (w : W) (request : DataUpdateRequest),
    get_status None w = (Raise unavailable, w, []) /\
    start_container cwd None w = (Raise unavailable, w, []) /\
    stop_container None w = (Raise unavailable, w, []) /\
    restart_container None w = (Raise unavailable, w, []) /\
    update_data cwd None request w = (Raise unavailable, w, []) /\
    rebuild_and_redeploy cwd None w = (Raise unavailable, w, []).
Proof.
  intros Hfailed. split.
  - revert Hfailed. unfold connect, try_except, and_then, invoke, ret.
    destruct (docker_from_env w0) as [[f1|[]] w1]; [reflexivity|].
    destruct (client_ping w1) as [[f2|[]] w2]; [reflexivity|].
    cbn. intros [[H|[H|[]]]|[H|[H|[]]]]; discriminate.
  - intros w request. repeat split.
Qed.

Lemma degraded_mode_fails_every_operation_witness :
  In (EFromEnv (inl (OtherError "Error while fetching server API version")))
     (events (connect daemon_down)) /\
  result (connect daemon_down) = Ok None /\
  update_data cwd0 None (mkRequest "dsl.txt" "{}") daemon_down = (Raise unavailable, daemon_down, []) /\
  rebuild_and_redeploy cwd0 None daemon_down = (Raise unavailable, daemon_down, []).
Proof.
  assert (Hin : In (EFromEnv (inl (OtherError "Error while fetching server API version")))
                   (events (connect daemon_down))) by (left; reflexivity).
  destruct (degraded_mode_fails_every_operation cwd0 daemon_down _ (or_introl Hin))
    as (Hnone & Hops).
  destruct (Hops daemon_down (mkRequest "dsl.txt" "{}")) as (_ & _ & _ & _ & Hupdate & Hrebuild).
  split; [exact Hin|]. split; [exact Hnone|]. split; [exact Hupdate | exact Hrebuild].
Defined.

(** C6, as stated, fails after a first stop that timed out.  A container that
    was created but never started stays [created] when it is stopped: the
    first stop raises the 504, and the second one finds [created], issues the
    stop command again and raises the 504 again. *)
Lemma second_stop_after_timeout_stops_again :
  let first := stop_container client never_started in
  let second := stop_container client (world first) in
  result first = Raise (HTTPException 504 (PStr "Container stop timed out.")) /\
  result second = Raise (HTTPException 504 (PStr "Container stop timed out.")) /\
  count is_stop_command (events second) = 1.
Proof. vm_compute. repeat split. Qed.

(** C6, as amended.  Take two consecutive stops of which the first returns
    normally.  The last thing the engine told the first is then that the
    container is [exited] or absent; and when the lookup of the second is
    answered as the engine last answered the first -- nothing touched the
    container in between -- the second answers [already_stopped] (exited) or
    [not_found_or_already_stopped] (absent) after that lookup alone, without a
    stop command.  On the fake engine, where nothing else touches the
    container, this is so in every state. *)
Theorem second_stop_short_circuits {W : Type} {RT : Runtime W} (w : W) :
  let first := stop_container client w in
  let second := stop_container client (world first) in
  let g := (containers_get CONTAINER_NAME (world first)).1 in
  (forall r, result first = Ok r ->
     exists a,
       last_answer (events first) = Some a /\ settled a = true /\
       (same_answer a g ->
        events second = [EGet CONTAINER_NAME g] /\
        result second = Ok (short_circuit_of_stop g) /\
        settled (view g) = true /\
        count is_stop_command (events second) = 0)) /\
  (forall (e : Fake.Engine) r,
     result (stop_container client e) = Ok r ->
     let again := stop_container client (world (stop_container client e)) in
     exists g',
       events again = [EGet CONTAINER_NAME g'] /\
       result again = Ok (short_circuit_of_stop g') /\
       settled (view g') = true /\
       count is_stop_command (events again) = 0).
Proof.
  assert (Hlast : forall (V : Type) (R : Runtime V) (v : V) r,
    result (stop_container client v) = Ok r ->
    exists a, last_answer (events (stop_container client v)) = Some a /\ settled a = true).
  { intros V R v r. rewrite stop_container_eq. unfold stop_handler.
    destruct (containers_get CONTAINER_NAME v) as [[f|c] w1].
    { unfold result, events; cbn [fst snd]. intros Hr. exists (inl f). split; [reflexivity|].
      cbn. destruct (is_NotFound f); [reflexivity | discriminate]. }
    destruct (is_exited (status c)) eqn:Eex.
    { intros _. exists (inr (status c)). split; [reflexivity | exact Eex]. }
    destruct (container_stop (cid c) w1) as [[f|[]] w2].
    { unfold result, events; cbn [fst snd]. intros Hr. exists (inl f). split; [reflexivity|].
      cbn. destruct (is_NotFound f); [reflexivity | discriminate]. }
    destruct (stop_poll_shape 10 c w2) as (ss & ending & _ & Hev & Hend).
    destruct (stop_poll 10 c w2) as [[r0 w3] t].
    unfold result, events in *; cbn [fst snd] in *. subst t.
    intros Hr.
    inversion Hend as [Hk He Hr0|k Hk Hlen He Hr0|k f Hk Hlen He Hr0]; subst ending r0.
    + discriminate.
    + exists (inr "exited"). split; [|reflexivity].
      change (EGet CONTAINER_NAME (inr c) :: EStop (cid c) (inr ())
                :: flat_map (read_wait (cid c)) ss ++ [EReload (cid c) (inr "exited")])
        with ((EGet CONTAINER_NAME (inr c) :: EStop (cid c) (inr ())
                 :: flat_map (read_wait (cid c)) ss) ++ [EReload (cid c) (inr "exited")]).
      apply last_answer_snoc.
    + exists (inl f). split.
      * change (EGet CONTAINER_NAME (inr c) :: EStop (cid c) (inr ())
                  :: flat_map (read_wait (cid c)) ss ++ [EReload (cid c) (inl f)])
          with ((EGet CONTAINER_NAME (inr c) :: EStop (cid c) (inr ())
                   :: flat_map (read_wait (cid c)) ss) ++ [EReload (cid c) (inl f)]).
        apply last_answer_snoc.
      * cbn in Hr |- *. unfold stop_handler in Hr.
        destruct (is_NotFound f); [reflexivity | discriminate]. }
  assert (Hshort : forall (V : Type) (R : Runtime V) (v : V) a,
    settled a = true ->
    same_answer a (containers_get CONTAINER_NAME v).1 ->
    events (stop_container client v) = [EGet CONTAINER_NAME (containers_get CONTAINER_NAME v).1] /\
    result (stop_container client v) =
      Ok (short_circuit_of_stop (containers_get CONTAINER_NAME v).1) /\
    settled (view (containers_get CONTAINER_NAME v).1) = true /\
    count is_stop_command (events (stop_container client v)) = 0).
  { intros V R v a Hsettled Hsame. rewrite stop_container_eq.
    destruct (containers_get CONTAINER_NAME v) as [[f|c] w1]; cbn [fst] in *.
    - destruct a as [f'|s']; cbn in Hsame, Hsettled; [|destruct Hsame].
      unfold stop_handler. rewrite Hsame, Hsettled. repeat split. cbn. congruence.
    - destruct a as [f'|s']; cbn in Hsame, Hsettled; [destruct Hsame|]. subst s'.
      rewrite Hsettled. repeat split. exact Hsettled. }
  intros first second g. split.
  - intros r Hr. destruct (Hlast W RT w r Hr) as (a & Ha & Hsettled).
    exists a. split; [exact Ha|]. split; [exact Hsettled|].
    intros Hsame. exact (Hshort W RT (world first) a Hsettled Hsame).
  - intros e r Hr again.
    destruct (Hlast _ _ e r Hr) as (a & Ha & Hsettled).
    destruct (fake_stop_is_stable e r Hr) as (a' & Ha' & Hsame).
    rewrite Ha in Ha'. injection Ha' as <-.
    exists (containers_get CONTAINER_NAME (world (stop_container client e))).1.
    exact (Hshort _ _ (world (stop_container client e)) a Hsettled Hsame).
Qed.

(** Two stops of a running container on a host where stopping takes two
    seconds: the first polls until it reads [exited], the second is told
    [exited] by its lookup and answers [already_stopped] at once. *)
Lemma second_stop_short_circuits_witness :
  let first := stop_container client slow_to_stop in
  let second := stop_container client (world first) in
  result first = Ok (PDict [("status", PStr "stopped_and_verified")]) /\
  last_answer (events first) = Some (inr "exited") /\
  same_answer (inr "exited") (containers_get CONTAINER_NAME (world first)).1 /\
  events second = [EGet CONTAINER_NAME (inr (mkContainer 0 CONTAINER_NAME "exited"))] /\
  result second = Ok (PDict [("status", PStr "already_stopped")]) /\
  count is_stop_command (events second) = 0.
Proof.
  intros first second.
  destruct (second_stop_short_circuits slow_to_stop) as [Hgeneric _].
  fold first in Hgeneric. fold second in Hgeneric.
  assert (Hfirst : result first = Ok (PDict [("status", PStr "stopped_and_verified")]))
    by (vm_compute; reflexivity).
  assert (Hlast : last_answer (events first) = Some (inr "exited"))
    by (vm_compute; reflexivity).
  assert (Hsame : same_answer (inr "exited") (containers_get CONTAINER_NAME (world first)).1)
    by (vm_compute; reflexivity).
  destruct (Hgeneric _ Hfirst) as (a & Ha & _ & Hshort).
  rewrite Hlast in Ha. injection Ha as <-.
  destruct (Hshort Hsame) as (Hev & Hres & _ & Hcount).
  split; [exact Hfirst|]. split; [exact Hlast|]. split; [exact Hsame|].
  split; [rewrite Hev; vm_compute; reflexivity|].
  split; [rewrite Hres; vm_compute; reflexivity | exact Hcount].
Defined.

(** ** Further properties of the handlers *)

Lemma slept_app (t u : list event) : slept (t ++ u) = slept t + slept u.
Proof.
  induction t as [|e t IH]; [reflexivity|].
  destruct e; cbn [app slept]; rewrite IH; lia.
Qed.

Lemma string_app_assoc (a b c : string) : ((a ++ b) ++ c)%string = (a ++ b ++ c)%string.
Proof.
  induction a as [|x a IH]; [reflexivity|].
  change (String x ((a ++ b) ++ c)%string = String x (a ++ b ++ c)%string).
  rewrite IH. reflexivity.
Qed.

Lemma string_app_nil_r (a : string) : (a ++ "")%string = a.
Proof.
  induction a as [|x a IH]; [reflexivity|].
  change (String x (a ++ "")%string = String x a). rewrite IH. reflexivity.
Qed.

Section Budget.
Context {W : Type} {RT : Runtime W}.

Lemma start_poll_budget n (c : Container) (w : W) :
  slept (events (start_poll n c w)) <= n /\
  count is_read (events (start_poll n c w)) <= n /\
  (is_timeout (result (start_poll n c w)) = true ->
   slept (events (start_poll n c w)) = n /\ count is_read (events (start_poll n c w)) = n).
Proof.
  revert c w. induction n as [|n IH]; intros c w.
  - cbn. repeat split; lia.
  - rewrite start_poll_step.
    destruct (container_reload (cid c) (time_sleep 1 w)) as [[f|s] w1].
    { cbn. repeat split; try lia; discriminate. }
    destruct (is_running s).
    { cbn. repeat split; try lia; discriminate. }
    destruct (is_failure s).
    { destruct (container_logs (cid c) w1) as [[f|text] w2];
        cbn; repeat split; try lia; discriminate. }
    specialize (IH (with_status c s) w1).
    destruct (start_poll n (with_status c s) w1) as [[r w2] t].
    unfold events, result in *. cbn [fst snd] in *. cbn [wait_read app slept count is_read].
    destruct IH as (Hs & Hr & Ht). repeat split; try lia; apply Ht in H; lia.
Qed.

Lemma restart_poll_budget n (c : Container) (w : W) :
  slept (events (restart_poll n c w)) <= n /\
  count is_read (events (restart_poll n c w)) <= n /\
  (is_timeout (result (restart_poll n c w)) = true ->
   slept (events (restart_poll n c w)) = n /\ count is_read (events (restart_poll n c w)) = n).
Proof.
  revert c w. induction n as [|n IH]; intros c w.
  - cbn. repeat split; lia.
  - rewrite restart_poll_step.
    destruct (container_reload (cid c) (time_sleep 1 w)) as [[f|s] w1].
    { cbn. repeat split; try lia; discriminate. }
    destruct (is_running s).
    { cbn. repeat split; try lia; discriminate. }
    destruct (is_failure s).
    { destruct (container_logs (cid c) w1) as [[f|text] w2];
        cbn; repeat split; try lia; discriminate. }
    specialize (IH (with_status c s) w1).
    destruct (restart_poll n (with_status c s) w1) as [[r w2] t].
    unfold events, result in *. cbn [fst snd] in *. cbn [wait_read app slept count is_read].
    destruct IH as (Hs & Hr & Ht). repeat split; try lia; apply Ht in H; lia.
Qed.

Lemma stop_poll_budget n (c : Container) (w : W) :
  slept (events (stop_poll n c w)) <= n /\
  count is_read (events (stop_poll n c w)) <= n /\
  (is_timeout (result (stop_poll n c w)) = true ->
   slept (events (stop_poll n c w)) = n /\ count is_read (events (stop_poll n c w)) = n).
Proof.
  revert c w. induction n as [|n IH]; intros c w.
  - cbn. repeat split; lia.
  - rewrite stop_poll_step.
    destruct (container_reload (cid c) w) as [[f|s] w1].
    { cbn. repeat split; try lia; discriminate. }
    destruct (is_exited s).
    { cbn. repeat split; try lia; discriminate. }
    specialize (IH (with_status c s) (time_sleep 1 w1)).
    destruct (stop_poll n (with_status c s) (time_sleep 1 w1)) as [[r w2] t].
    unfold events, result in *. cbn [fst snd] in *. cbn [read_wait app slept count is_read].
    destruct IH as (Hs & Hr & Ht). repeat split; try lia; apply Ht in H; lia.
Qed.

(** A fault handled by the except clauses of the three operations never
    becomes a 504. *)
Lemma recover_keeps_timeout (handler : fault -> res pyval) (r : res pyval) :
  (forall f, is_timeout (handler f) = false) ->
  is_timeout (recover handler r) = true -> is_timeout r = true.
Proof.
  intros Hh. destruct r as [a|[code d|f]]; cbn; try (intros H; exact H).
  rewrite Hh. discriminate.
Qed.

Lemma start_handler_no_timeout f : is_timeout (start_handler f) = false.
Proof. unfold start_handler. destruct (is_ImageNotFound f); reflexivity. Qed.

Lemma stop_handler_no_timeout f : is_timeout (stop_handler f) = false.
Proof. unfold stop_handler. destruct (is_NotFound f); reflexivity. Qed.

Lemma restart_handler_no_timeout f : is_timeout (restart_handler f) = false.
Proof. unfold restart_handler. destruct (is_NotFound f); reflexivity. Qed.
End Budget.

Section Outcomes.
Context {W : Type} {RT : Runtime W}.
Variable cwd : string.

Lemma snoc_read (t : list event) id s :
  t ++ wait_read id s = (t ++ [ESleep 1]) ++ [EReload id (inr s)].
Proof. rewrite <- app_assoc. reflexivity. Qed.

(** Budgets of the three operations. *)
Lemma start_container_budget (w : W) :
  let run := start_container cwd client w in
  slept (events run) <= 10 /\ count is_read (events run) <= 10 /\
  (is_timeout (result run) = true -> slept (events run) = 10 /\ count is_read (events run) = 10).
Proof.
  cbv zeta. rewrite start_container_eq.
  assert (Hlaunch : forall g w1,
    let run := launch cwd [EGet CONTAINER_NAME g] w1 in
    slept (events run) <= 10 /\ count is_read (events run) <= 10 /\
    (is_timeout (result run) = true ->
     slept (events run) = 10 /\ count is_read (events run) = 10)).
  { intros g w1. cbv zeta. unfold launch.
    destruct (containers_run IMAGE_NAME CONTAINER_NAME (volumes cwd) w1) as [[f|c] w2].
    - unfold events, result; cbn [fst snd app slept count is_read].
      rewrite start_handler_no_timeout. repeat split; try lia; discriminate.
    - pose proof (start_poll_budget 10 c w2) as (Hs & Hr & Ht).
      destruct (start_poll 10 c w2) as [[r w3] t].
      unfold events, result in *; cbn [fst snd app slept count is_read] in *.
      repeat split; try lia;
        apply (recover_keeps_timeout _ _ start_handler_no_timeout) in H; apply Ht in H; lia. }
  destruct (containers_get CONTAINER_NAME w) as [[f|c] w1].
  - destruct (is_NotFound f); [apply Hlaunch|].
    cbn. repeat split; try lia; discriminate.
  - destruct (is_running (status c)); [|apply Hlaunch].
    cbn. repeat split; try lia; discriminate.
Qed.

Lemma stop_container_budget (w : W) :
  let run := stop_container client w in
  slept (events run) <= 10 /\ count is_read (events run) <= 10 /\
  (is_timeout (result run) = true -> slept (events run) = 10 /\ count is_read (events run) = 10).
Proof.
  cbv zeta. rewrite stop_container_eq.
  destruct (containers_get CONTAINER_NAME w) as [[f|c] w1].
  { unfold events, result; cbn [fst snd slept count is_read].
    rewrite stop_handler_no_timeout. repeat split; try lia; discriminate. }
  destruct (is_exited (status c)).
  { cbn. repeat split; try lia; discriminate. }
  destruct (container_stop (cid c) w1) as [[f|[]] w2].
  { unfold events, result; cbn [fst snd slept count is_read].
    rewrite stop_handler_no_timeout. repeat split; try lia; discriminate. }
  pose proof (stop_poll_budget 10 c w2) as (Hs & Hr & Ht).
  destruct (stop_poll 10 c w2) as [[r w3] t].
  unfold events, result in *; cbn [fst snd app slept count is_read] in *.
  repeat split; try lia;
    apply (recover_keeps_timeout _ _ stop_handler_no_timeout) in H; apply Ht in H; lia.
Qed.

Lemma restart_container_budget (w : W) :
  let run := restart_container client w in
  slept (events run) <= 10 /\ count is_read (events run) <= 10 /\
  (is_timeout (result run) = true -> slept (events run) = 10 /\ count is_read (events run) = 10).
Proof.
  cbv zeta. rewrite restart_container_eq.
  destruct (containers_get CONTAINER_NAME w) as [[f|c] w1].
  { unfold events, result; cbn [fst snd slept count is_read].
    rewrite restart_handler_no_timeout. repeat split; try lia; discriminate. }
  destruct (container_restart (cid c) w1) as [[f|[]] w2].
  { unfold events, result; cbn [fst snd slept count is_read].
    rewrite restart_handler_no_timeout. repeat split; try lia; discriminate. }
  pose proof (restart_poll_budget 10 c w2) as (Hs & Hr & Ht).
  destruct (restart_poll 10 c w2) as [[r w3] t].
  unfold events, result in *; cbn [fst snd app slept count is_read] in *.
  repeat split; try lia;
    apply (recover_keeps_timeout _ _ restart_handler_no_timeout) in H; apply Ht in H; lia.
Qed.

(** update-data, call by call. *)
Lemma update_data_eq (request : DataUpdateRequest) (w : W) :
  update_data cwd client request w =
  let path := path_join (HOST_DATA_PATH cwd) (filename request) in
  match stop_container client w with
  | (Raise e, w1, t1) => (Raise e, w1, t1)
  | (Ok _, w1, t1) =>
      match file_write path (content request) w1 with
      | (inr _, w2) =>
          match restart_container client w2 with
          | (Ok _, w3, t3) =>
              (Ok (PDict [("status", PStr "data_updated_and_restarted");
                          ("filename", PStr (filename request))]),
               w3, t1 ++ EWrite path (content request) (inr tt) :: t3)
          | (Raise e, w3, t3) =>
              (Raise e, w3, t1 ++ EWrite path (content request) (inr tt) :: t3)
          end
      | (inl f, w2) =>
          if is_IOError f then
            match restart_container client w2 with
            | (Ok _, w3, t3) =>
                (Raise (HTTPException 500 (PStr ("Failed to write to file: " ++ fault_str f))),
                 w3, t1 ++ EWrite path (content request) (inl f) :: t3)
            | (Raise e, w3, t3) =>
                (Raise e, w3, t1 ++ EWrite path (content request) (inl f) :: t3)
            end
          else (Raise (Fault f), w2, t1 ++ [EWrite path (content request) (inl f)])
      end
  end.
Proof.
  cbv zeta. unfold update_data.
  unfold and_then at 1.
  destruct (stop_container client w) as [[[r1|e] w1] t1]; [|reflexivity].
  unfold and_then at 1. unfold try_except at 1, write, invoke.
  destruct (file_write (path_join (HOST_DATA_PATH cwd) (filename request)) (content request) w1)
    as [[f|[]] w2].
  - destruct (is_IOError f).
    + unfold and_then at 1.
      destruct (restart_container client w2) as [[[a|e] w3] t3]; cbn; rewrite ?app_nil_r;
        reflexivity.
    + cbn. rewrite ?app_nil_r. reflexivity.
  - unfold and_then at 1.
    destruct (restart_container client w2) as [[[a|e] w3] t3]; cbn; rewrite ?app_nil_r;
      reflexivity.
Qed.
End Outcomes.

Lemma cleanup_does_not_sleep (t : list event) :
  forallb is_cleanup_event t = true -> slept t = 0 /\ count is_read t = 0.
Proof.
  induction t as [|e t IH]; [split; reflexivity|].
  cbn [forallb]. intros H. apply andb_prop in H as [He Ht].
  destruct e; try discriminate He; cbn; exact (IH Ht).
Qed.

(** X1.  With a client, status makes exactly one call, the lookup, whatever
    the engine answers.  A container found is reported with its name and
    status; not-found (of either kind) is the ordinary reply [not_found];
    every other fault becomes a 500 carrying the text of the fault. *)
Theorem status_reads_once {W : Type} {RT : Runtime W} (w : W) :
  exists g w1,
    containers_get CONTAINER_NAME w = (g, w1) /\
    events (get_status client w) = [EGet CONTAINER_NAME g] /\
    world (get_status client w) = w1 /\
    result (get_status client w) =
      match g with
      | inr c => Ok (PDict [("container_name", PStr (name c)); ("status", PStr (status c))])
      | inl f =>
          if is_NotFound f then Ok (PDict [("status", PStr "not_found")])
          else Raise (HTTPException 500 (PStr (fault_str f)))
      end.
Proof.
  unfold get_status, client, require_client, try_except, get, and_then, invoke, ret, raise.
  destruct (containers_get CONTAINER_NAME w) as [[f|c] w1] eqn:Hget.
  - exists (inl f), w1. destruct (is_NotFound f); repeat split; reflexivity.
  - exists (inr c), w1. repeat split; reflexivity.
Qed.

(** X2.  The time spent polling is bounded: start, stop and restart each
    sleep at most 10 seconds and re-read the state at most 10 times;
    update-data, which stops and then restarts, at most 20; rebuild, which
    polls only in its final start, at most 10. *)
Theorem polling_time_is_bounded {W : Type} {RT : Runtime W}
    (cwd : string) (request : DataUpdateRequest) (w : W) :
  (slept (events (start_container cwd client w)) <= 10 /\
   count is_read (events (start_container cwd client w)) <= 10) /\
  (slept (events (stop_container client w)) <= 10 /\
   count is_read (events (stop_container client w)) <= 10) /\
  (slept (events (restart_container client w)) <= 10 /\
   count is_read (events (restart_container client w)) <= 10) /\
  (slept (events (update_data cwd client request w)) <= 20 /\
   count is_read (events (update_data cwd client request w)) <= 20) /\
  (slept (events (rebuild_and_redeploy cwd client w)) <= 10 /\
   count is_read (events (rebuild_and_redeploy cwd client w)) <= 10).
Proof.
  split; [pose proof (start_container_budget cwd w) as (H1 & H2 & _); split; assumption|].
  split; [pose proof (stop_container_budget w) as (H1 & H2 & _); split; assumption|].
  split; [pose proof (restart_container_budget w) as (H1 & H2 & _); split; assumption|].
  split.
  - rewrite update_data_eq. cbv zeta.
    pose proof (stop_container_budget w) as (Hs1 & Hr1 & _). cbv zeta in Hs1, Hr1.
    destruct (stop_container client w) as [[[r1|e] w1] t1];
      unfold events in *; cbn [snd] in *; [|split; lia].
    destruct (file_write _ _ w1) as [[f|[]] w2].
    + destruct (is_IOError f).
      * pose proof (restart_container_budget w2) as (Hs3 & Hr3 & _). cbv zeta in Hs3, Hr3.
        destruct (restart_container client w2) as [[[a|e] w3] t3];
          unfold events in *; cbn [snd] in *;
          rewrite slept_app, count_app; cbn [slept count is_read]; split; lia.
      * cbn [snd]. rewrite slept_app, count_app. cbn. split; lia.
    + pose proof (restart_container_budget w2) as (Hs3 & Hr3 & _). cbv zeta in Hs3, Hr3.
      destruct (restart_container client w2) as [[[a|e] w3] t3];
        unfold events in *; cbn [snd] in *;
        rewrite slept_app, count_app; cbn [slept count is_read]; split; lia.
  - rewrite rebuild_and_redeploy_eq.
    pose proof (remove_old_facts w) as [Hkind _].
    destruct (remove_old w) as [[[u|e] w1] t1]; unfold events in *; cbn [snd] in *;
      apply cleanup_does_not_sleep in Hkind as [Hs1 Hr1]; [|split; lia].
    destruct (images_build (BUILD_CONTEXT_PATH cwd) IMAGE_NAME w1) as [[f|chunks] w2].
    + cbn [snd]. rewrite slept_app, count_app. cbn. split; lia.
    + pose proof (start_container_budget cwd w2) as (Hs3 & Hr3 & _). cbv zeta in Hs3, Hr3.
      destruct (start_container cwd client w2) as [[[a|e] w3] t3];
        unfold events in *; cbn [snd] in *;
        rewrite slept_app, count_app; cbn [slept count is_read]; split; lia.
Qed.

(** X3.  A 504 is raised only when the whole budget is spent: a start, stop
    or restart that times out has slept exactly 10 seconds and re-read the
    state exactly 10 times. *)
Theorem timeout_spends_the_whole_budget {W : Type} {RT : Runtime W} (cwd : string) (w : W) :
  (is_timeout (result (start_container cwd client w)) = true ->
   slept (events (start_container cwd client w)) = 10 /\
   count is_read (events (start_container cwd client w)) = 10) /\
  (is_timeout (result (stop_container client w)) = true ->
   slept (events (stop_container client w)) = 10 /\
   count is_read (events (stop_container client w)) = 10) /\
  (is_timeout (result (restart_container client w)) = true ->
   slept (events (restart_container client w)) = 10 /\
   count is_read (events (restart_container client w)) = 10).
Proof.
  split; [exact (proj2 (proj2 (start_container_budget cwd w)))|].
  split; [exact (proj2 (proj2 (stop_container_budget w)))|].
  exact (proj2 (proj2 (restart_container_budget w))).
Qed.

(** A container that never leaves [created]: starting it and stopping it
    both time out after ten seconds and ten re-reads. *)
Lemma timeout_spends_the_whole_budget_witness :
  is_timeout (result (start_container cwd0 client hanging)) = true /\
  slept (events (start_container cwd0 client hanging)) = 10 /\
  count is_read (events (start_container cwd0 client hanging)) = 10 /\
  is_timeout (result (stop_container client never_started)) = true /\
  slept (events (stop_container client never_started)) = 10 /\
  count is_read (events (stop_container client never_started)) = 10.
Proof.
  destruct (timeout_spends_the_whole_budget cwd0 hanging) as (Hstart & _ & _).
  destruct (timeout_spends_the_whole_budget cwd0 never_started) as (_ & Hstop & _).
  assert (H1 : is_timeout (result (start_container cwd0 client hanging)) = true)
    by (vm_compute; reflexivity).
  assert (H2 : is_timeout (result (stop_container client never_started)) = true)
    by (vm_compute; reflexivity).
  destruct (Hstart H1) as [Ha Hb]. destruct (Hstop H2) as [Hc Hd].
  repeat split; assumption.
Defined.

Section Replies.
Context {W : Type} {RT : Runtime W}.
Variable cwd : string.

Lemma read_wait_all_answered id id' f (ss : list string) :
  ~ In (EReload id (inl f)) (flat_map (read_wait id') ss).
Proof.
  induction ss as [|s ss IH]; cbn; [tauto|].
  intros [H|[H|H]]; [discriminate | discriminate | exact (IH H)].
Qed.

Lemma wait_read_all_answered id id' f (ss : list string) :
  ~ In (EReload id (inl f)) (flat_map (wait_read id') ss).
Proof.
  induction ss as [|s ss IH]; cbn; [tauto|].
  intros [H|[H|H]]; [discriminate | discriminate | exact (IH H)].
Qed.

(** How the loops end, read off their shape. *)
Lemma start_poll_replies n (c : Container) (w : W) :
  match result (start_poll n c w) with
  | Ok r =>
      r = PDict [("status", PStr "started_and_running")] /\
      exists before, events (start_poll n c w) = before ++ [EReload (cid c) (inr "running")]
  | Raise (HTTPException code _) => code = 500 \/ code = 504
  | Raise (Fault _) => True
  end /\
  (forall id f, In (EReload id (inl f)) (events (start_poll n c w)) ->
     result (start_poll n c w) = Raise (Fault f)).
Proof.
  destruct (start_poll_shape n c w) as (ss & ending & _ & Hev & Hend).
  destruct (start_poll n c w) as [[r w1] t]. unfold events, result in *; cbn [fst snd] in *.
  subst t. inversion Hend; subst; (split; [|intros id f0 Hin; apply in_app_or in Hin as [Hin|Hin];
    [exfalso; exact (wait_read_all_answered _ _ _ _ Hin)|]]).
  - right; reflexivity.
  - destruct Hin.
  - split; [reflexivity|]. eexists. apply snoc_read.
  - destruct Hin as [Hin|[Hin|[]]]; discriminate.
  - left; reflexivity.
  - destruct Hin as [Hin|[Hin|[Hin|[]]]]; discriminate.
  - exact I.
  - destruct Hin as [Hin|[Hin|[]]]; [discriminate|]. injection Hin as _ ->. reflexivity.
  - exact I.
  - destruct Hin as [Hin|[Hin|[Hin|[]]]]; discriminate.
Qed.

Lemma restart_poll_replies n (c : Container) (w : W) :
  match result (restart_poll n c w) with
  | Ok r =>
      r = PDict [("status", PStr "restarted_and_running")] /\
      exists before, events (restart_poll n c w) = before ++ [EReload (cid c) (inr "running")]
  | Raise (HTTPException code _) => code = 500 \/ code = 504
  | Raise (Fault _) => True
  end /\
  (forall id f, In (EReload id (inl f)) (events (restart_poll n c w)) ->
     result (restart_poll n c w) = Raise (Fault f)).
Proof.
  destruct (restart_poll_shape n c w) as (ss & ending & _ & Hev & Hend).
  destruct (restart_poll n c w) as [[r w1] t]. unfold events, result in *; cbn [fst snd] in *.
  subst t. inversion Hend; subst; (split; [|intros id f0 Hin; apply in_app_or in Hin as [Hin|Hin];
    [exfalso; exact (wait_read_all_answered _ _ _ _ Hin)|]]).
  - right; reflexivity.
  - destruct Hin.
  - split; [reflexivity|]. eexists. apply snoc_read.
  - destruct Hin as [Hin|[Hin|[]]]; discriminate.
  - left; reflexivity.
  - destruct Hin as [Hin|[Hin|[Hin|[]]]]; discriminate.
  - exact I.
  - destruct Hin as [Hin|[Hin|[]]]; [discriminate|]. injection Hin as _ ->. reflexivity.
  - exact I.
  - destruct Hin as [Hin|[Hin|[Hin|[]]]]; discriminate.
Qed.

Lemma stop_poll_replies n (c : Container) (w : W) :
  match result (stop_poll n c w) with
  | Ok r => r = PDict [("status", PStr "stopped_and_verified")]
  | Raise (HTTPException code _) => code = 504
  | Raise (Fault _) => True
  end /\
  (forall id f, In (EReload id (inl f)) (events (stop_poll n c w)) ->
     result (stop_poll n c w) = Raise (Fault f)).
Proof.
  destruct (stop_poll_shape n c w) as (ss & ending & _ & Hev & Hend).
  destruct (stop_poll n c w) as [[r w1] t]. unfold events, result in *; cbn [fst snd] in *.
  subst t. inversion Hend; subst; (split; [|intros id f0 Hin; apply in_app_or in Hin as [Hin|Hin];
    [exfalso; exact (read_wait_all_answered _ _ _ _ Hin)|]]).
  - reflexivity.
  - destruct Hin.
  - reflexivity.
  - destruct Hin as [Hin|[]]; discriminate.
  - exact I.
  - destruct Hin as [Hin|[]]. injection Hin as _ ->. reflexivity.
Qed.

Lemma stop_poll_events n (c : Container) (w : W) :
  forallb is_stop_event (events (stop_poll n c w)) = true /\
  count is_stop_command (events (stop_poll n c w)) = 0.
Proof.
  revert c w. induction n as [|n IH]; intros c w; [split; reflexivity|].
  rewrite stop_poll_step.
  destruct (container_reload (cid c) w) as [[f|s] w1]; [split; reflexivity|].
  destruct (is_exited s); [split; reflexivity|].
  specialize (IH (with_status c s) (time_sleep 1 w1)).
  destruct (stop_poll n (with_status c s) (time_sleep 1 w1)) as [[r w2] t]. exact IH.
Qed.

Lemma restart_poll_kinds n (c : Container) (w : W) :
  forallb is_restart_event (events (restart_poll n c w)) = true /\
  count is_restart_command (events (restart_poll n c w)) = 0.
Proof.
  revert c w. induction n as [|n IH]; intros c w; [split; reflexivity|].
  rewrite restart_poll_step.
  destruct (container_reload (cid c) (time_sleep 1 w)) as [[f|s] w1]; [split; reflexivity|].
  destruct (is_running s); [split; reflexivity|].
  destruct (is_failure s).
  - destruct (container_logs (cid c) w1) as [[f|text] w2]; split; reflexivity.
  - specialize (IH (with_status c s) w1).
    destruct (restart_poll n (with_status c s) w1) as [[r w2] t]. exact IH.
Qed.
End Replies.

(** Success of start and of restart, traced back to what was read. *)
Lemma running_was_seen {W : Type} {RT : Runtime W} (cwd : string) (w : W) :
  (forall r, result (start_container cwd client w) = Ok r ->
     (r = PDict [("status", PStr "already_running")] \/
      r = PDict [("status", PStr "started_and_running")]) /\
     last_answer (events (start_container cwd client w)) = Some (inr "running")) /\
  (forall r, result (restart_container client w) = Ok r ->
     r = PDict [("status", PStr "restarted_and_running")] /\
     last_answer (events (restart_container client w)) = Some (inr "running")).
Proof.
  split.
  - intros r. rewrite start_container_eq.
    assert (Hlaunch : forall g w1,
      result (launch cwd [EGet CONTAINER_NAME g] w1) = Ok r ->
      (r = PDict [("status", PStr "already_running")] \/
       r = PDict [("status", PStr "started_and_running")]) /\
      last_answer (events (launch cwd [EGet CONTAINER_NAME g] w1)) = Some (inr "running")).
    { intros g w1. unfold launch.
      destruct (containers_run IMAGE_NAME CONTAINER_NAME (volumes cwd) w1) as [[f|c] w2].
      - unfold result; cbn [fst]. unfold start_handler.
        destruct (is_ImageNotFound f); discriminate.
      - pose proof (start_poll_replies 10 c w2) as [Hreply _].
        destruct (start_poll 10 c w2) as [[[a|[code d|f]] w3] t];
          unfold result, events in *; cbn [fst snd recover] in *.
        + destruct Hreply as [-> [before ->]]. intros Hr. injection Hr as <-.
          split; [right; reflexivity|].
          change ([EGet CONTAINER_NAME g] ++
                  ERun IMAGE_NAME CONTAINER_NAME (volumes cwd) (inr c)
                  :: before ++ [EReload (cid c) (inr "running")])
            with ((EGet CONTAINER_NAME g
                   :: ERun IMAGE_NAME CONTAINER_NAME (volumes cwd) (inr c) :: before)
                  ++ [EReload (cid c) (inr "running")]).
          apply last_answer_snoc.
        + discriminate.
        + unfold start_handler. destruct (is_ImageNotFound f); discriminate. }
    destruct (containers_get CONTAINER_NAME w) as [[f|c] w1].
    + destruct (is_NotFound f); [apply Hlaunch | discriminate].
    + destruct (is_running (status c)) eqn:Erun; [|apply Hlaunch].
      intros Hr. injection Hr as <-. split; [left; reflexivity|].
      cbn. apply eqb_true in Erun. rewrite Erun. reflexivity.
  - intros r. rewrite restart_container_eq.
    destruct (containers_get CONTAINER_NAME w) as [[f|c] w1].
    { unfold result; cbn [fst]. unfold restart_handler. destruct (is_NotFound f); discriminate. }
    destruct (container_restart (cid c) w1) as [[f|[]] w2].
    { unfold result; cbn [fst]. unfold restart_handler. destruct (is_NotFound f); discriminate. }
    pose proof (restart_poll_replies 10 c w2) as [Hreply _].
    destruct (restart_poll 10 c w2) as [[[a|[code d|f]] w3] t];
      unfold result, events in *; cbn [fst snd recover] in *.
    + destruct Hreply as [-> [before ->]]. intros Hr. injection Hr as <-.
      split; [reflexivity|].
      change (EGet CONTAINER_NAME (inr c) :: ERestart (cid c) (inr ())
              :: before ++ [EReload (cid c) (inr "running")])
        with ((EGet CONTAINER_NAME (inr c) :: ERestart (cid c) (inr ()) :: before)
              ++ [EReload (cid c) (inr "running")]).
      apply last_answer_snoc.
    + discriminate.
    + unfold restart_handler. destruct (is_NotFound f); discriminate.
Qed.

(** X4.  Start and restart return normally only when the last thing the
    engine said is that the container is running: start answers
    [already_running] (the lookup showed it) or [started_and_running] (the last
    re-read showed it) and nothing else; restart answers
    [restarted_and_running] and nothing else. *)
Theorem success_means_seen_running {W : Type} {RT : Runtime W} (cwd : string) (w : W) :
  (forall r, result (start_container cwd client w) = Ok r ->
     (r = PDict [("status", PStr "already_running")] \/
      r = PDict [("status", PStr "started_and_running")]) /\
     last_answer (events (start_container cwd client w)) = Some (inr "running")) /\
  (forall r, result (restart_container client w) = Ok r ->
     r = PDict [("status", PStr "restarted_and_running")] /\
     last_answer (events (restart_container client w)) = Some (inr "running")).
Proof.
  pose proof (running_was_seen cwd w) as [Hstart Hrestart].
  split; [exact Hstart | exact Hrestart].
Qed.

(** A first start on a fresh host, then a restart of the running container. *)
Lemma success_means_seen_running_witness :
  result (start_container cwd0 client Fake.fresh) = Ok (PDict [("status", PStr "started_and_running")]) /\
  last_answer (events (start_container cwd0 client Fake.fresh)) = Some (inr "running") /\
  result (restart_container client started_once) = Ok (PDict [("status", PStr "restarted_and_running")]) /\
  last_answer (events (restart_container client started_once)) = Some (inr "running").
Proof.
  destruct (success_means_seen_running cwd0 Fake.fresh) as [Hstart _].
  destruct (success_means_seen_running cwd0 started_once) as [_ Hrestart].
  assert (H1 : result (start_container cwd0 client Fake.fresh)
               = Ok (PDict [("status", PStr "started_and_running")])) by (vm_compute; reflexivity).
  assert (H2 : result (restart_container client started_once)
               = Ok (PDict [("status", PStr "restarted_and_running")])) by (vm_compute; reflexivity).
  destruct (Hstart _ H1) as [_ Ha]. destruct (Hrestart _ H2) as [_ Hb].
  repeat split; assumption.
Defined.

(** X5.  What stop can answer: one of its three statuses, or an HTTP error
    with code 500 or 504.  No exception of the engine leaves stop as it is,
    and not-found never becomes an error. *)
Theorem stop_replies {W : Type} {RT : Runtime W} (w : W) :
  match result (stop_container client w) with
  | Ok r =>
      r = PDict [("status", PStr "already_stopped")] \/
      r = PDict [("status", PStr "stopped_and_verified")] \/
      r = PDict [("status", PStr "not_found_or_already_stopped")]
  | Raise (HTTPException code _) => code = 500 \/ code = 504
  | Raise (Fault _) => False
  end.
Proof.
  rewrite stop_container_eq.
  destruct (containers_get CONTAINER_NAME w) as [[f|c] w1].
  { unfold result; cbn [fst]. unfold stop_handler. destruct (is_NotFound f); auto. }
  destruct (is_exited (status c)); [left; reflexivity|].
  destruct (container_stop (cid c) w1) as [[f|[]] w2].
  { unfold result; cbn [fst]. unfold stop_handler. destruct (is_NotFound f); auto. }
  pose proof (stop_poll_replies 10 c w2) as [Hreply _].
  destruct (stop_poll 10 c w2) as [[[a|[code d|f]] w3] t];
    unfold result in *; cbn [fst recover] in *.
  - right; left; exact Hreply.
  - right; exact Hreply.
  - unfold stop_handler. destruct (is_NotFound f); auto.
Qed.

(** X6.  What restart can answer: [restarted_and_running], or an HTTP error
    with code 404 (the container is not there), 500 or 504.  No exception of
    the engine leaves restart as it is. *)
Theorem restart_replies {W : Type} {RT : Runtime W} (w : W) :
  match result (restart_container client w) with
  | Ok r => r = PDict [("status", PStr "restarted_and_running")]
  | Raise (HTTPException code _) => code = 404 \/ code = 500 \/ code = 504
  | Raise (Fault _) => False
  end.
Proof.
  rewrite restart_container_eq.
  destruct (containers_get CONTAINER_NAME w) as [[f|c] w1].
  { unfold result; cbn [fst]. unfold restart_handler. destruct (is_NotFound f); auto. }
  destruct (container_restart (cid c) w1) as [[f|[]] w2].
  { unfold result; cbn [fst]. unfold restart_handler. destruct (is_NotFound f); auto. }
  pose proof (restart_poll_replies 10 c w2) as [Hreply _].
  destruct (restart_poll 10 c w2) as [[[a|[code d|f]] w3] t];
    unfold result in *; cbn [fst recover] in *.
  - exact (proj1 Hreply).
  - right; exact Hreply.
  - unfold restart_handler. destruct (is_NotFound f); auto.
Qed.

(** X7.  What start can answer: [already_running] or [started_and_running],
    or an HTTP error with code 404 (image missing), 500 or 504.  The one
    exception of the engine that leaves start as it is comes from the first
    lookup, when it fails with anything but not-found: that lookup is then
    the only call made and nothing is created. *)
Theorem start_replies {W : Type} {RT : Runtime W} (cwd : string) (w : W) :
  match result (start_container cwd client w) with
  | Ok r =>
      r = PDict [("status", PStr "already_running")] \/
      r = PDict [("status", PStr "started_and_running")]
  | Raise (HTTPException code _) => code = 404 \/ code = 500 \/ code = 504
  | Raise (Fault f) =>
      is_NotFound f = false /\
      events (start_container cwd client w) = [EGet CONTAINER_NAME (inl f)]
  end.
Proof.
  rewrite start_container_eq.
  assert (Hlaunch : forall seen w1,
    match result (launch cwd seen w1) with
    | Ok r =>
        r = PDict [("status", PStr "already_running")] \/
        r = PDict [("status", PStr "started_and_running")]
    | Raise (HTTPException code _) => code = 404 \/ code = 500 \/ code = 504
    | Raise (Fault f) => False
    end).
  { intros seen w1. unfold launch.
    destruct (containers_run IMAGE_NAME CONTAINER_NAME (volumes cwd) w1) as [[f|c] w2].
    - unfold result; cbn [fst]. unfold start_handler. destruct (is_ImageNotFound f); auto.
    - pose proof (start_poll_replies 10 c w2) as [Hreply _].
      destruct (start_poll 10 c w2) as [[[a|[code d|f]] w3] t];
        unfold result in *; cbn [fst recover] in *.
      + right; exact (proj1 Hreply).
      + right; exact Hreply.
      + unfold start_handler. destruct (is_ImageNotFound f); auto. }
  destruct (containers_get CONTAINER_NAME w) as [[f|c] w1].
  - destruct (is_NotFound f) eqn:Enf.
    + specialize (Hlaunch [EGet CONTAINER_NAME (inl f)] w1).
      destruct (result (launch cwd [EGet CONTAINER_NAME (inl f)] w1)) as [a|[code d|f']];
        [exact Hlaunch | exact Hlaunch | destruct Hlaunch].
    + split; [exact Enf | reflexivity].
  - destruct (is_running (status c)); [left; reflexivity|].
    specialize (Hlaunch [EGet CONTAINER_NAME (inr c)] w1).
    destruct (result (launch cwd [EGet CONTAINER_NAME (inr c)] w1)) as [a|[code d|f']];
      [exact Hlaunch | exact Hlaunch | destruct Hlaunch].
Qed.

(** The calls of stop and of restart, counted. *)
Lemma stop_container_kinds {W : Type} {RT : Runtime W} (w : W) :
  let run := stop_container client w in
  forallb is_stop_event (events run) = true /\
  count is_lookup (events run) = 1 /\
  count is_stop_command (events run) =
    match (containers_get CONTAINER_NAME w).1 with
    | inr c => if is_exited (status c) then 0 else 1
    | inl _ => 0
    end.
Proof.
  cbv zeta. rewrite stop_container_eq.
  destruct (containers_get CONTAINER_NAME w) as [[f|c] w1]; cbn [fst].
  { repeat split. }
  destruct (is_exited (status c)); [repeat split|].
  destruct (container_stop (cid c) w1) as [[f|[]] w2]; [repeat split|].
  pose proof (stop_poll_events 10 c w2) as [Hkind Hstop].
  pose proof (stop_poll_polls 10 c w2) as Hpoll.
  destruct (stop_poll 10 c w2) as [[r w3] t]. unfold events in *; cbn [snd] in *.
  split; [exact Hkind|]. split.
  - cbn. rewrite (poll_event_is_quiet _ poll_no_lookup _ Hpoll). reflexivity.
  - cbn. rewrite Hstop. reflexivity.
Qed.


Lemma restart_container_kinds {W : Type} {RT : Runtime W} (w : W) :
  let run := restart_container client w in
  forallb is_restart_event (events run) = true /\
  count is_lookup (events run) = 1 /\
  count is_restart_command (events run) =
    match (containers_get CONTAINER_NAME w).1 with
    | inr _ => 1
    | inl _ => 0
    end.
Proof.
  cbv zeta. rewrite restart_container_eq.
  destruct (containers_get CONTAINER_NAME w) as [[f|c] w1]; cbn [fst].
  { repeat split. }
  destruct (container_restart (cid c) w1) as [[f|[]] w2]; [repeat split|].
  pose proof (restart_poll_kinds 10 c w2) as [Hkind Hrestart].
  pose proof (restart_poll_polls 10 c w2) as Hpoll.
  destruct (restart_poll 10 c w2) as [[r w3] t]. unfold events in *; cbn [snd] in *.
  split; [exact Hkind|]. split.
  - cbn. rewrite (poll_event_is_quiet _ poll_no_lookup _ Hpoll). reflexivity.
  - cbn. rewrite Hrestart. reflexivity.
Qed.

(** X9.  The footprint of restart: one lookup, then the restart command
    whenever the container is found, whatever its state, then only sleeps,
    re-reads and a log fetch; never a creation, a stop, a removal, a build or a
    write.  A container that is not there is never created by restart. *)
Theorem restart_footprint {W : Type} {RT : Runtime W} (w : W) :
  let run := restart_container client w in
  forallb is_restart_event (events run) = true /\
  count is_lookup (events run) = 1 /\
  count is_restart_command (events run) =
    match (containers_get CONTAINER_NAME w).1 with
    | inr _ => 1
    | inl _ => 0
    end.
Proof.
  intros run. pose proof (restart_container_kinds w) as (Hkinds & Hlookup & Hrestart).
  split; [exact Hkinds|]. split; [exact Hlookup | exact Hrestart].
Qed.

(** X10.  The footprint of start: one lookup, then exactly one create-and-run
    unless the lookup found the container running or failed with something
    other than not-found, then only sleeps, re-reads and a log fetch.  The
    creation is always of the fixed image under the fixed name, with the data
    directory mounted read-write at the fixed path. *)
Theorem start_footprint {W : Type} {RT : Runtime W} (cwd : string) (w : W) :
  let run := start_container cwd client w in
  forallb is_start_event (events run) = true /\
  count is_lookup (events run) = 1 /\
  count is_creation (events run) =
    match (containers_get CONTAINER_NAME w).1 with
    | inr c => if is_running (status c) then 0 else 1
    | inl f => if is_NotFound f then 1 else 0
    end /\
  (forall image container_name vols r,
     In (ERun image container_name vols r) (events run) ->
     image = IMAGE_NAME /\ container_name = CONTAINER_NAME /\
     vols = [ {| host_path := HOST_DATA_PATH cwd; bind := "/app/data"; mode := "rw" |} ]).
Proof.
  cbv zeta. split; [apply start_container_events|].
  rewrite start_container_eq.
  assert (Hlaunch : forall g w1,
    let run := launch cwd [EGet CONTAINER_NAME g] w1 in
    count is_lookup (events run) = 1 /\ count is_creation (events run) = 1 /\
    (forall image container_name vols r,
       In (ERun image container_name vols r) (events run) ->
       image = IMAGE_NAME /\ container_name = CONTAINER_NAME /\
       vols = [ {| host_path := HOST_DATA_PATH cwd; bind := "/app/data"; mode := "rw" |} ])).
  { intros g w1. cbv zeta. unfold launch.
    destruct (containers_run IMAGE_NAME CONTAINER_NAME (volumes cwd) w1) as [[f|c] w2].
    - unfold events; cbn [snd]. split; [reflexivity|]. split; [reflexivity|].
      intros image container_name vols r [H|[H|[]]]; [discriminate|].
      injection H as <- <- <- _. repeat split.
    - pose proof (start_poll_polls 10 c w2) as Hpoll.
      destruct (start_poll 10 c w2) as [[r w3] t]. unfold events in *; cbn [snd] in *.
      split; [cbn; rewrite (poll_event_is_quiet _ poll_no_lookup _ Hpoll); reflexivity|].
      split; [cbn; rewrite (poll_event_is_quiet _ poll_no_creation _ Hpoll); reflexivity|].
      intros image container_name vols r0 [H|[H|H]]; [discriminate| |].
      + injection H as <- <- <- _. repeat split.
      + apply (kind_of_member _ _ _ Hpoll) in H. discriminate. }
  destruct (containers_get CONTAINER_NAME w) as [[f|c] w1]; cbn [fst].
  - destruct (is_NotFound f); [apply Hlaunch|].
    split; [reflexivity|]. split; [reflexivity|].
    intros image container_name vols r [H|[]]. discriminate.
  - destruct (is_running (status c)); [|apply Hlaunch].
    split; [reflexivity|]. split; [reflexivity|].
    intros image container_name vols r [H|[]]. discriminate.
Qed.

(** X11.  A container that disappears while it is polled (a re-read answered
    with not-found) ends the three operations differently: start raises the
    generic 500, stop answers [not_found_or_already_stopped] as an ordinary
    reply, restart raises the 404. *)
Theorem vanished_container_is_reported_per_operation {W : Type} {RT : Runtime W}
    (cwd : string) (w : W) (id : nat) (f : fault) :
  is_NotFound f = true -> is_ImageNotFound f = false ->
  (In (EReload id (inl f)) (events (start_container cwd client w)) ->
   result (start_container cwd client w) =
     Raise (HTTPException 500 (PStr ("An unexpected error occurred: " ++ fault_str f)))) /\
  (In (EReload id (inl f)) (events (stop_container client w)) ->
   result (stop_container client w) =
     Ok (PDict [("status", PStr "not_found_or_already_stopped")])) /\
  (In (EReload id (inl f)) (events (restart_container client w)) ->
   result (restart_container client w) =
     Raise (HTTPException 404 (PStr "Container not found."))).
Proof.
  intros Hnf Himg. split; [|split].
  - rewrite start_container_eq.
    assert (Hlaunch : forall g w1,
      In (EReload id (inl f)) (events (launch cwd [EGet CONTAINER_NAME g] w1)) ->
      result (launch cwd [EGet CONTAINER_NAME g] w1) =
        Raise (HTTPException 500 (PStr ("An unexpected error occurred: " ++ fault_str f)))).
    { intros g w1. unfold launch.
      destruct (containers_run IMAGE_NAME CONTAINER_NAME (volumes cwd) w1) as [[f'|c] w2].
      - unfold events; cbn [snd]. intros [H|[H|[]]]; discriminate.
      - pose proof (start_poll_replies 10 c w2) as [_ Hraised].
        destruct (start_poll 10 c w2) as [[r w3] t].
        unfold events, result in *; cbn [fst snd] in *.
        intros [H|[H|H]]; [discriminate | discriminate |].
        rewrite (Hraised _ _ H). cbn. unfold start_handler. rewrite Himg. reflexivity. }
    destruct (containers_get CONTAINER_NAME w) as [[f'|c] w1].
    + destruct (is_NotFound f'); [apply Hlaunch|]. intros [H|[]]. discriminate.
    + destruct (is_running (status c)); [|apply Hlaunch]. intros [H|[]]. discriminate.
  - rewrite stop_container_eq.
    destruct (containers_get CONTAINER_NAME w) as [[f'|c] w1].
    { intros [H|[]]. discriminate. }
    destruct (is_exited (status c)).
    { intros [H|[]]. discriminate. }
    destruct (container_stop (cid c) w1) as [[f'|[]] w2].
    { intros [H|[H|[]]]; discriminate. }
    pose proof (stop_poll_replies 10 c w2) as [_ Hraised].
    destruct (stop_poll 10 c w2) as [[r w3] t].
    unfold events, result in *; cbn [fst snd] in *.
    intros [H|[H|H]]; [discriminate | discriminate |].
    rewrite (Hraised _ _ H). cbn. unfold stop_handler. rewrite Hnf. reflexivity.
  - rewrite restart_container_eq.
    destruct (containers_get CONTAINER_NAME w) as [[f'|c] w1].
    { intros [H|[]]. discriminate. }
    destruct (container_restart (cid c) w1) as [[f'|[]] w2].
    { intros [H|[H|[]]]; discriminate. }
    pose proof (restart_poll_replies 10 c w2) as [_ Hraised].
    destruct (restart_poll 10 c w2) as [[r w3] t].
    unfold events, result in *; cbn [fst snd] in *.
    intros [H|[H|H]]; [discriminate | discriminate |].
    rewrite (Hraised _ _ H). cbn. unfold restart_handler. rewrite Hnf. reflexivity.
Qed.

(** The three operations on an engine scripted to lose the container at the
    first re-read. *)
Lemma vanished_container_is_reported_per_operation_witness :
  let starting := [Script.Fails gone; Script.Found (the_container "created"); Script.Fails gone] in
  let stopping := [Script.Found (the_container "running"); Script.Done; Script.Fails gone] in
  In (EReload 7 (inl gone)) (events (start_container cwd0 client starting)) /\
  In (EReload 7 (inl gone)) (events (stop_container client stopping)) /\
  In (EReload 7 (inl gone)) (events (restart_container client stopping)) /\
  result (start_container cwd0 client starting) =
    Raise (HTTPException 500 (PStr "An unexpected error occurred: No such container: 7")) /\
  result (stop_container client stopping) =
    Ok (PDict [("status", PStr "not_found_or_already_stopped")]) /\
  result (restart_container client stopping) =
    Raise (HTTPException 404 (PStr "Container not found.")).
Proof.
  intros starting stopping.
  assert (H1 : In (EReload 7 (inl gone)) (events (start_container cwd0 client starting))).
  { vm_compute. do 3 right. left. reflexivity. }
  assert (H2 : In (EReload 7 (inl gone)) (events (stop_container client stopping))).
  { vm_compute. do 2 right. left. reflexivity. }
  assert (H3 : In (EReload 7 (inl gone)) (events (restart_container client stopping))).
  { vm_compute. do 3 right. left. reflexivity. }
  destruct (vanished_container_is_reported_per_operation cwd0 starting 7 gone eq_refl eq_refl)
    as (Hstart & _ & _).
  destruct (vanished_container_is_reported_per_operation cwd0 stopping 7 gone eq_refl eq_refl)
    as (_ & Hstop & Hrestart).
  split; [exact H1|]. split; [exact H2|]. split; [exact H3|].
  split; [exact (Hstart H1)|]. split; [exact (Hstop H2) | exact (Hrestart H3)].
Defined.



Lemma stop_event_is_no_write e : is_stop_event e = true -> is_write e = false.
Proof. destruct e; cbn; congruence. Qed.
Lemma stop_event_is_no_restart e : is_stop_event e = true -> is_restart_command e = false.
Proof. destruct e; cbn; congruence. Qed.
Lemma restart_event_is_no_write e : is_restart_event e = true -> is_write e = false.
Proof. destruct e; cbn; congruence. Qed.

Lemma endswith_sep_cons (a : ascii) (s : string) :
  s <> "" -> endswith_sep (String a s) = endswith_sep s.
Proof.
  destruct s as [|b s]; [congruence|]. intros _.
  destruct a as [[] [] [] [] [] [] [] []]; reflexivity.
Qed.

Lemma endswith_sep_app (a b : string) :
  b <> "" -> endswith_sep (a ++ b) = endswith_sep b.
Proof.
  intros Hb. induction a as [|x a IH]; [reflexivity|].
  change (endswith_sep (String x (a ++ b)) = endswith_sep b).
  rewrite endswith_sep_cons; [exact IH|].
  destruct a; [exact Hb | discriminate].
Qed.

(** The data directory is never empty and never ends with a separator, so a
    relative name is glued to it with exactly one separator. *)
Lemma write_target_is_the_joined_path (cwd filename : string) :
  path_join (HOST_DATA_PATH cwd) filename = write_target cwd filename.
Proof.
  unfold write_target, path_join at 1.
  destruct (startswith_sep filename); [reflexivity|].
  assert (Hend : endswith_sep (HOST_DATA_PATH cwd) = false).
  { unfold HOST_DATA_PATH, path_join. cbn [startswith_sep].
    destruct ((cwd =? "")%string || endswith_sep cwd).
    - rewrite endswith_sep_app; [reflexivity | discriminate].
    - change (cwd ++ "/" ++ "app/trading_data")%string with (cwd ++ "/app/trading_data")%string.
      rewrite endswith_sep_app; [reflexivity | discriminate]. }
  assert (Hne : (HOST_DATA_PATH cwd =? "")%string = false).
  { unfold HOST_DATA_PATH, path_join. cbn [startswith_sep].
    destruct ((cwd =? "")%string || endswith_sep cwd); destruct cwd; reflexivity. }
  rewrite Hend, Hne. reflexivity.
Qed.

Lemma prefix_of_app (a b : string) : String.prefix a (a ++ b) = true.
Proof.
  induction a as [|x a IH]; [destruct b; reflexivity|].
  change (String.prefix (String x a) (String x (a ++ b)) = true).
  cbn [String.prefix]. destruct (ascii_dec x x) as [_|Hne]; [exact IH | congruence].
Qed.

Section DataUpdate.
Context {W : Type} {RT : Runtime W}.
Variable cwd : string.

Lemma update_data_writes (request : DataUpdateRequest) (w : W) :
  let run := update_data cwd client request w in
  count is_write (events run) <= 1 /\
  (forall p c r, In (EWrite p c r) (events run) ->
     p = write_target cwd (filename request) /\ c = content request).
Proof.
  cbv zeta. rewrite update_data_eq. cbv zeta. rewrite write_target_is_the_joined_path.
  pose proof (stop_container_kinds w) as (Hstop & _ & _). cbv zeta in Hstop.
  destruct (stop_container client w) as [[[r1|e] w1] t1]; unfold events in *; cbn [snd] in *.
  2:{ split.
      - rewrite (count_none _ _ _ stop_event_is_no_write Hstop). lia.
      - intros p c r H. apply (kind_of_member _ _ _ Hstop) in H. discriminate. }
  assert (Hrestart : forall w2,
    forallb is_restart_event (events (restart_container client w2)) = true).
  { intros w2. exact (proj1 (restart_container_kinds w2)). }
  destruct (file_write _ _ w1) as [[f|[]] w2].
  - destruct (is_IOError f).
    + specialize (Hrestart w2).
      destruct (restart_container client w2) as [[[a|e] w3] t3];
        unfold events in *; cbn [snd] in *;
        (split;
         [ rewrite count_app, (count_none _ _ _ stop_event_is_no_write Hstop); cbn;
           rewrite (count_none _ _ _ restart_event_is_no_write Hrestart); lia
         | intros p c r H; apply in_app_or in H as [H|[H|H]];
           [ apply (kind_of_member _ _ _ Hstop) in H; discriminate
           | injection H as <- <- _; split; reflexivity
           | apply (kind_of_member _ _ _ Hrestart) in H; discriminate ] ]).
    + cbn [snd]. split.
      * rewrite count_app, (count_none _ _ _ stop_event_is_no_write Hstop). cbn. lia.
      * intros p c r H. apply in_app_or in H as [H|[H|[]]].
        -- apply (kind_of_member _ _ _ Hstop) in H. discriminate.
        -- injection H as <- <- _. split; reflexivity.
  - specialize (Hrestart w2).
    destruct (restart_container client w2) as [[[a|e] w3] t3];
      unfold events in *; cbn [snd] in *;
      (split;
       [ rewrite count_app, (count_none _ _ _ stop_event_is_no_write Hstop); cbn;
         rewrite (count_none _ _ _ restart_event_is_no_write Hrestart); lia
       | intros p c r H; apply in_app_or in H as [H|[H|H]];
         [ apply (kind_of_member _ _ _ Hstop) in H; discriminate
         | injection H as <- <- _; split; reflexivity
         | apply (kind_of_member _ _ _ Hrestart) in H; discriminate ] ]).
Qed.
End DataUpdate.

(** X13.  Update-data writes at most once per call, always the content of the
    request, to the path joined from the data directory and the file name.
    For a relative name that path begins with the data directory and a
    separator (dot-dot components are not resolved); for an absolute name it
    is the name itself. *)
Theorem update_data_writes_once_to_the_joined_path {W : Type} {RT : Runtime W}
    (cwd : string) (request : DataUpdateRequest) (w : W) :
  let run := update_data cwd client request w in
  count is_write (events run) <= 1 /\
  (forall p c r, In (EWrite p c r) (events run) ->
     p = write_target cwd (filename request) /\ c = content request) /\
  (startswith_sep (filename request) = false ->
   is_under (HOST_DATA_PATH cwd) (write_target cwd (filename request)) = true) /\
  (startswith_sep (filename request) = true ->
   write_target cwd (filename request) = filename request).
Proof.
  intros run. pose proof (update_data_writes cwd request w) as [Hcount Htarget].
  split; [exact Hcount|]. split; [exact Htarget|]. split.
  - intros Hrel. unfold write_target, is_under. rewrite Hrel.
    rewrite <- string_app_assoc. apply prefix_of_app.
  - intros Habs. unfold write_target. rewrite Habs. reflexivity.
Qed.

Lemma update_data_writes_once_to_the_joined_path_witness :
  let request := mkRequest "dsl.txt" "{}" in
  let run := update_data cwd0 client request started_once in
  startswith_sep "dsl.txt" = false /\
  In (EWrite "/srv/manager/app/trading_data/dsl.txt" "{}" (inr tt)) (events run) /\
  write_target cwd0 "dsl.txt" = "/srv/manager/app/trading_data/dsl.txt" /\
  is_under (HOST_DATA_PATH cwd0) (write_target cwd0 "dsl.txt") = true.
Proof.
  intros request run.
  destruct (update_data_writes_once_to_the_joined_path cwd0 request started_once)
    as (_ & Htarget & Hunder & _).
  assert (Hin : In (EWrite "/srv/manager/app/trading_data/dsl.txt" "{}" (inr tt)) (events run)).
  { vm_compute. do 3 right. left. reflexivity. }
  destruct (Htarget _ _ _ Hin) as [Hp _].
  split; [reflexivity|]. split; [exact Hin|]. split; [symmetry; exact Hp|].
  exact (Hunder eq_refl).
Defined.

(** X14.  If the stop at the beginning of update-data raises, update-data
    ends right there with that exception: the file is not written and no
    restart is attempted. *)
Theorem update_data_aborts_when_stop_fails {W : Type} {RT : Runtime W}
    (cwd : string) (request : DataUpdateRequest) (w : W) (e : exn) :
  result (stop_container client w) = Raise e ->
  update_data cwd client request w = stop_container client w /\
  count is_write (events (update_data cwd client request w)) = 0 /\
  count is_restart_command (events (update_data cwd client request w)) = 0.
Proof.
  intros Hstop.
  assert (Heq : update_data cwd client request w = stop_container client w).
  { rewrite update_data_eq. cbv zeta.
    destruct (stop_container client w) as [[[r1|e'] w1] t1]; [discriminate | reflexivity]. }
  rewrite Heq. split; [reflexivity|].
  pose proof (stop_container_kinds w) as (Hkinds & _ & _). cbv zeta in Hkinds.
  split.
  - exact (count_none _ _ _ stop_event_is_no_write Hkinds).
  - exact (count_none _ _ _ stop_event_is_no_restart Hkinds).
Qed.

(** A container that never reaches [exited]: the stop times out, and the
    file is left as it was. *)
Lemma update_data_aborts_when_stop_fails_witness :
  let request := mkRequest "dsl.txt" "{}" in
  result (stop_container client never_started)
    = Raise (HTTPException 504 (PStr "Container stop timed out.")) /\
  result (update_data cwd0 client request never_started)
    = Raise (HTTPException 504 (PStr "Container stop timed out.")) /\
  count is_write (events (update_data cwd0 client request never_started)) = 0 /\
  Fake.files (world (update_data cwd0 client request never_started)) = ∅.
Proof.
  intros request.
  assert (Hstop : result (stop_container client never_started)
                  = Raise (HTTPException 504 (PStr "Container stop timed out.")))
    by (vm_compute; reflexivity).
  destruct (update_data_aborts_when_stop_fails cwd0 request never_started _ Hstop)
    as (Heq & Hwrite & _).
  split; [exact Hstop|]. split; [rewrite Heq; exact Hstop|]. split; [exact Hwrite|].
  rewrite Heq. vm_compute. reflexivity.
Defined.

(** X15.  Only [IOError] is caught around the write.  When the write raises
    anything else, update-data lets that exception through as it is, the
    failed write is its last call and no restart is attempted: the container
    stays stopped. *)
Theorem update_data_lets_other_write_errors_through {W : Type} {RT : Runtime W}
    (cwd : string) (request : DataUpdateRequest) (w : W) (p c : string) (f : fault) :
  let run := update_data cwd client request w in
  In (EWrite p c (inl f)) (events run) -> is_IOError f = false ->
  result run = Raise (Fault f) /\
  count is_restart_command (events run) = 0 /\
  exists before, events run = before ++ [EWrite p c (inl f)].
Proof.
  cbv zeta. rewrite update_data_eq. cbv zeta.
  pose proof (stop_container_kinds w) as (Hstop & _ & _). cbv zeta in Hstop.
  destruct (stop_container client w) as [[[r1|e] w1] t1]; unfold events, result in *;
    cbn [fst snd] in *.
  2:{ intros H. apply (kind_of_member _ _ _ Hstop) in H. discriminate. }
  assert (Hrestart : forall w2,
    forallb is_restart_event (events (restart_container client w2)) = true).
  { intros w2. exact (proj1 (restart_container_kinds w2)). }
  destruct (file_write _ _ w1) as [[f'|[]] w2].
  - destruct (is_IOError f') eqn:Eio.
    + specialize (Hrestart w2).
      destruct (restart_container client w2) as [[[a|e] w3] t3];
        unfold events in *; cbn [fst snd] in *;
        (intros H Hf; apply in_app_or in H as [H|[H|H]];
         [ apply (kind_of_member _ _ _ Hstop) in H; discriminate
         | injection H as _ _ ->; congruence
         | apply (kind_of_member _ _ _ Hrestart) in H; discriminate ]).
    + cbn [fst snd]. intros H Hf. apply in_app_or in H as [H|[H|[]]].
      * apply (kind_of_member _ _ _ Hstop) in H. discriminate.
      * injection H as <- <- <-. split; [reflexivity|]. split.
        -- rewrite count_app, (count_none _ _ _ stop_event_is_no_restart Hstop). reflexivity.
        -- exists t1. reflexivity.
  - specialize (Hrestart w2).
    destruct (restart_container client w2) as [[[a|e] w3] t3];
      unfold events in *; cbn [fst snd] in *;
      (intros H Hf; apply in_app_or in H as [H|[H|H]];
       [ apply (kind_of_member _ _ _ Hstop) in H; discriminate
       | discriminate
       | apply (kind_of_member _ _ _ Hrestart) in H; discriminate ]).
Qed.

(** A file name that [open] rejects with a ValueError, on an engine scripted
    to show the container exited. *)
Lemma update_data_lets_other_write_errors_through_witness :
  let request := mkRequest (String zero "dsl.txt") "{}" in
  let script := [Script.Found (the_container "exited");
                 Script.Fails (OtherError "embedded null byte")] in
  let run := update_data cwd0 client request script in
  In (EWrite (write_target cwd0 (filename request)) "{}" (inl (OtherError "embedded null byte")))
     (events run) /\
  result run = Raise (Fault (OtherError "embedded null byte")) /\
  count is_restart_command (events run) = 0.
Proof.
  intros request script run.
  assert (Hin : In (EWrite (write_target cwd0 (filename request)) "{}"
                      (inl (OtherError "embedded null byte"))) (events run)).
  { vm_compute. right. left. reflexivity. }
  destruct (update_data_lets_other_write_errors_through cwd0 request script _ _ _ Hin eq_refl)
    as (Hresult & Hcount & _).
  split; [exact Hin|]. split; [exact Hresult | exact Hcount].
Defined.

(** X16.  Update-data returns normally only when the file was written and
    the container was then seen running: its one reply is
    [data_updated_and_restarted] with the file name as given, the write of the
    request's content succeeded, and the last thing the engine said is that
    the container is running. *)
Theorem update_data_success_means_written_and_running {W : Type} {RT : Runtime W}
    (cwd : string) (request : DataUpdateRequest) (w : W) (r : pyval) :
  let run := update_data cwd client request w in
  result run = Ok r ->
  r = PDict [("status", PStr "data_updated_and_restarted");
             ("filename", PStr (filename request))] /\
  In (EWrite (write_target cwd (filename request)) (content request) (inr tt)) (events run) /\
  last_answer (events run) = Some (inr "running").
Proof.
  cbv zeta. rewrite update_data_eq. cbv zeta. rewrite write_target_is_the_joined_path.
  destruct (stop_container client w) as [[[r1|e] w1] t1]; unfold events, result in *;
    cbn [fst snd] in *; [|discriminate].
  destruct (file_write _ _ w1) as [[f|[]] w2].
  - destruct (is_IOError f); [|discriminate].
    destruct (restart_container client w2) as [[[a|e] w3] t3]; discriminate.
  - pose proof (running_was_seen cwd w2) as [_ Hrestart].
    destruct (restart_container client w2) as [[[a|e] w3] t3]; unfold events, result in *;
      cbn [fst snd] in *; [|discriminate].
    intros Hr. injection Hr as <-. split; [reflexivity|]. split.
    + apply in_or_app. right. left. reflexivity.
    + destruct (Hrestart a eq_refl) as [_ Hlast].
      clear Hrestart. revert Hlast. generalize (EWrite (write_target cwd (filename request))
                                                  (content request) (inr ())).
      intros e Hlast.
      assert (Hne : t3 <> []) by (destruct t3; [discriminate | discriminate]).
      clear -Hlast Hne. induction t1 as [|x t1 IH].
      * cbn [app]. destruct t3 as [|y t3]; [congruence|]. exact Hlast.
      * cbn [app]. destruct (t1 ++ e :: t3) eqn:E; [destruct t1; discriminate|].
        exact IH.
Qed.

Lemma update_data_success_means_written_and_running_witness :
  let request := mkRequest "dsl.txt" "{}" in
  let run := update_data cwd0 client request started_once in
  result run = Ok (PDict [("status", PStr "data_updated_and_restarted");
                          ("filename", PStr "dsl.txt")]) /\
  In (EWrite (write_target cwd0 "dsl.txt") "{}" (inr tt)) (events run) /\
  last_answer (events run) = Some (inr "running") /\
  Fake.files (world run) !! "/srv/manager/app/trading_data/dsl.txt" = Some "{}".
Proof.
  intros request run.
  assert (Hok : result run = Ok (PDict [("status", PStr "data_updated_and_restarted");
                                        ("filename", PStr "dsl.txt")]))
    by (vm_compute; reflexivity).
  destruct (update_data_success_means_written_and_running cwd0 request started_once _ Hok)
    as (_ & Hin & Hlast).
  split; [exact Hok|]. split; [exact Hin|]. split; [exact Hlast|].
  vm_compute. reflexivity.
Defined.

Lemma cleanup_event_is_no_build e : is_cleanup_event e = true -> is_build_call e = false.
Proof. destruct e; cbn; congruence. Qed.
Lemma start_event_is_no_removal e : is_start_event e = true -> is_removal e = false.
Proof. destruct e; cbn; congruence. Qed.
Lemma start_event_is_no_build e : is_start_event e = true -> is_build_call e = false.
Proof. destruct e; cbn; congruence. Qed.

(** The text accumulated from a build log is the stripped ["stream"] entries,
    each followed by a newline, after what was accumulated before. *)
Lemma stream_logs_rendered (chunks : list chunk) (acc : string) :
  stream_logs chunks acc = (acc ++ rendered (streams chunks))%string.
Proof.
  revert acc. induction chunks as [|c chunks IH]; intros acc.
  - cbn. rewrite string_app_nil_r. reflexivity.
  - cbn [stream_logs]. unfold streams. cbn [omap list_omap]. fold (streams chunks).
    destruct (c !! "stream") as [text|].
    + rewrite IH. cbn [rendered]. rewrite !string_app_assoc. reflexivity.
    + apply IH.
Qed.

Section Rebuild.
Context {W : Type} {RT : Runtime W}.
Variable cwd : string.

Lemma remove_old_failure (w : W) (id : nat) (f : fault) :
  In (EStop id (inl f)) (events (remove_old w)) \/
  In (ERemove id (inl f)) (events (remove_old w)) ->
  is_NotFound f = false ->
  result (remove_old w) =
    Raise (HTTPException 500 (PStr ("Error removing old container: " ++ fault_str f))).
Proof.
  unfold remove_old, cleanup_handler.
  destruct (containers_get CONTAINER_NAME w) as [[f'|c] w1].
  { intros [[H|[]]|[H|[]]]; discriminate. }
  destruct (container_stop (cid c) w1) as [[f'|[]] w2].
  { unfold events, result; cbn [fst snd].
    intros [[H|[H|[]]]|[H|[H|[]]]] Hnf; try discriminate.
    injection H as _ ->. rewrite Hnf. reflexivity. }
  destruct (container_remove (cid c) w2) as [[f'|[]] w3].
  - unfold events, result; cbn [fst snd].
    intros [[H|[H|[H|[]]]]|[H|[H|[H|[]]]]] Hnf; try discriminate.
    injection H as _ ->. rewrite Hnf. reflexivity.
  - intros [[H|[H|[H|[]]]]|[H|[H|[H|[]]]]]; discriminate.
Qed.

Lemma remove_old_counts (w : W) :
  count is_removal (events (remove_old w)) <= 1.
Proof.
  unfold remove_old.
  destruct (containers_get CONTAINER_NAME w) as [[f'|c] w1]; [cbn; lia|].
  destruct (container_stop (cid c) w1) as [[f'|[]] w2]; [cbn; lia|].
  destruct (container_remove (cid c) w2) as [[f'|[]] w3]; cbn; lia.
Qed.
End Rebuild.

(** X17.  If the stop or the removal of step 1 of a rebuild raises anything
    but not-found, the rebuild raises the 500 "Error removing old container"
    with the text of that fault; no image is built and no container is
    created. *)
Theorem rebuild_aborts_when_cleanup_fails {W : Type} {RT : Runtime W}
    (cwd : string) (w : W) (id : nat) (f : fault) :
  let run := rebuild_and_redeploy cwd client w in
  In (EStop id (inl f)) (events run) \/ In (ERemove id (inl f)) (events run) ->
  is_NotFound f = false ->
  result run =
    Raise (HTTPException 500 (PStr ("Error removing old container: " ++ fault_str f))) /\
  count is_build_call (events run) = 0 /\
  count is_creation (events run) = 0.
Proof.
  cbv zeta. rewrite rebuild_and_redeploy_eq.
  pose proof (remove_old_facts w) as [Hkind _].
  pose proof (remove_old_failure w id f) as Hfail.
  destruct (remove_old w) as [[[u|e] w1] t1]; unfold events, result in *; cbn [fst snd] in *.
  - intros Hin Hnf. exfalso.
    assert (Hrest : forall rest,
      forallb is_start_event rest = true ->
      In (EStop id (inl f)) (t1 ++ rest) \/ In (ERemove id (inl f)) (t1 ++ rest) -> False).
    { intros rest Hrest [H|H]; apply in_app_or in H as [H|H].
      - specialize (Hfail (or_introl H) Hnf). discriminate.
      - apply (kind_of_member _ _ _ Hrest) in H. discriminate.
      - specialize (Hfail (or_intror H) Hnf). discriminate.
      - apply (kind_of_member _ _ _ Hrest) in H. discriminate. }
    destruct (images_build (BUILD_CONTEXT_PATH cwd) IMAGE_NAME w1) as [[f'|chunks] w2].
    + cbn [snd] in Hin. destruct Hin as [H|H]; apply in_app_or in H as [H|[H|[]]];
        try discriminate.
      * specialize (Hfail (or_introl H) Hnf). discriminate.
      * specialize (Hfail (or_intror H) Hnf). discriminate.
    + pose proof (start_container_events cwd w2) as Hstart.
      destruct (start_container cwd client w2) as [[[a|e] w3] t3];
        unfold events in *; cbn [snd] in *;
        (destruct Hin as [H|H]; apply in_app_or in H as [H|[H|H]]; try discriminate;
         [ specialize (Hfail (or_introl H) Hnf); discriminate
         | apply (kind_of_member _ _ _ Hstart) in H; discriminate
         | specialize (Hfail (or_intror H) Hnf); discriminate
         | apply (kind_of_member _ _ _ Hstart) in H; discriminate ]).
  - intros Hin Hnf. specialize (Hfail Hin Hnf). injection Hfail as ->.
    split; [reflexivity|]. split.
    + exact (count_none _ _ _ cleanup_event_is_no_build Hkind).
    + exact (count_none _ _ _ cleanup_event_creates_nothing Hkind).
Qed.

(** A running container that ignores the stop: the engine refuses to remove
    it, and the rebuild ends there. *)
Lemma rebuild_aborts_when_cleanup_fails_witness :
  let refused := OtherError "409 Client Error: Conflict (cannot remove a running container)" in
  let run := rebuild_and_redeploy cwd0 client stubborn in
  In (ERemove 0 (inl refused)) (events run) /\
  result run =
    Raise (HTTPException 500
             (PStr "Error removing old container: 409 Client Error: Conflict (cannot remove a running container)")) /\
  count is_build_call (events run) = 0 /\
  count is_creation (events run) = 0.
Proof.
  intros refused run.
  assert (Hin : In (ERemove 0 (inl refused)) (events run)).
  { vm_compute. do 2 right. left. reflexivity. }
  destruct (rebuild_aborts_when_cleanup_fails cwd0 stubborn 0 refused (or_intror Hin) eq_refl)
    as (Hresult & Hbuild & Hcreate).
  split; [exact Hin|]. split; [exact Hresult|]. split; [exact Hbuild | exact Hcreate].
Defined.

(** X18.  A rebuild builds the image at most once, removes at most once and
    creates at most once.  The build, when there is one, is of the fixed
    context and tag, comes right after a step 1 that ended with the container
    reported absent or removed, and is followed by calls of start only.  A
    container is created only after a build that succeeded. *)
Theorem rebuild_builds_once_after_removal {W : Type} {RT : Runtime W} (cwd : string) (w : W) :
  let run := rebuild_and_redeploy cwd client w in
  count is_build_call (events run) <= 1 /\
  count is_removal (events run) <= 1 /\
  count is_creation (events run) <= 1 /\
  (forall p t b, In (EBuild p t b) (events run) ->
     p = BUILD_CONTEXT_PATH cwd /\ t = IMAGE_NAME /\
     exists cleanup rest,
       events run = cleanup ++ EBuild p t b :: rest /\
       container_gone cleanup /\ forallb is_start_event rest = true) /\
  (count is_creation (events run) = 1 ->
   exists chunks, In (EBuild (BUILD_CONTEXT_PATH cwd) IMAGE_NAME (inr chunks)) (events run)).
Proof.
  cbv zeta. rewrite rebuild_and_redeploy_eq.
  pose proof (remove_old_facts w) as [Hkind Hgone].
  pose proof (remove_old_counts w) as Hremoved.
  destruct (remove_old w) as [[[u|e] w1] t1]; unfold events, result in *; cbn [fst snd] in *.
  2:{ rewrite (count_none _ _ _ cleanup_event_is_no_build Hkind).
      rewrite (count_none _ _ _ cleanup_event_creates_nothing Hkind).
      repeat split; try lia.
      - apply (kind_of_member _ _ _ Hkind) in H. discriminate.
      - apply (kind_of_member _ _ _ Hkind) in H. discriminate.
      - apply (kind_of_member _ _ _ Hkind) in H. discriminate. }
  specialize (Hgone u eq_refl).
  assert (Hshape : forall b rest,
    forallb is_start_event rest = true ->
    count is_creation rest <= 1 ->
    (count is_creation rest = 1 -> exists chunks, b = inr chunks) ->
    let t := t1 ++ EBuild (BUILD_CONTEXT_PATH cwd) IMAGE_NAME b :: rest in
    count is_build_call t <= 1 /\ count is_removal t <= 1 /\ count is_creation t <= 1 /\
    (forall p tag b', In (EBuild p tag b') t ->
       p = BUILD_CONTEXT_PATH cwd /\ tag = IMAGE_NAME /\
       exists cleanup rest', t = cleanup ++ EBuild p tag b' :: rest' /\
         container_gone cleanup /\ forallb is_start_event rest' = true) /\
    (count is_creation t = 1 ->
     exists chunks, In (EBuild (BUILD_CONTEXT_PATH cwd) IMAGE_NAME (inr chunks)) t)).
  { intros b rest Hrest Hcreated Hbuilt. cbv zeta.
    rewrite !count_app. cbn [count is_build_call is_removal is_creation].
    rewrite (count_none _ _ _ cleanup_event_is_no_build Hkind).
    rewrite (count_none _ _ _ cleanup_event_creates_nothing Hkind).
    rewrite (count_none _ _ _ start_event_is_no_build Hrest).
    rewrite (count_none _ _ _ start_event_is_no_removal Hrest).
    split; [lia|]. split; [lia|]. split; [lia|]. split.
    - intros p tag b' H. apply in_app_or in H as [H|[H|H]].
      + apply (kind_of_member _ _ _ Hkind) in H. discriminate.
      + injection H as <- <- <-. split; [reflexivity|]. split; [reflexivity|].
        exists t1, rest. split; [reflexivity|]. split; assumption.
      + apply (kind_of_member _ _ _ Hrest) in H. discriminate.
    - intros H. destruct Hbuilt as [chunks ->]; [lia|].
      exists chunks. apply in_or_app. right. left. reflexivity. }
  destruct (images_build (BUILD_CONTEXT_PATH cwd) IMAGE_NAME w1) as [[f|chunks] w2].
  - cbn [snd]. apply (Hshape (inl f) []); [reflexivity | cbn; lia | cbn; lia].
  - pose proof (start_container_events cwd w2) as Hstart.
    assert (Hone : count is_creation (events (start_container cwd client w2)) <= 1).
    { rewrite start_container_eq. unfold launch.
      destruct (containers_get CONTAINER_NAME w2) as [[f|c] w3].
      - destruct (is_NotFound f); [|cbn; lia].
        destruct (containers_run IMAGE_NAME CONTAINER_NAME (volumes cwd) w3) as [[f'|c] w4];
          [cbn; lia|].
        pose proof (start_poll_polls 10 c w4) as Hpoll.
        destruct (start_poll 10 c w4) as [[r w5] t]. unfold events in *; cbn [snd] in *.
        cbn. rewrite (poll_event_is_quiet _ poll_no_creation _ Hpoll). lia.
      - destruct (is_running (status c)); [cbn; lia|].
        destruct (containers_run IMAGE_NAME CONTAINER_NAME (volumes cwd) w3) as [[f'|c'] w4];
          [cbn; lia|].
        pose proof (start_poll_polls 10 c' w4) as Hpoll.
        destruct (start_poll 10 c' w4) as [[r w5] t]. unfold events in *; cbn [snd] in *.
        cbn. rewrite (poll_event_is_quiet _ poll_no_creation _ Hpoll). lia. }
    destruct (start_container cwd client w2) as [[[a|e] w3] t3];
      unfold events in *; cbn [snd] in *;
      apply (Hshape (inr chunks) t3); try assumption; intros _; exists chunks; reflexivity.
Qed.

(** A rebuild on a fresh host with a build that succeeds: one build, then one
    creation. *)
Lemma rebuild_builds_once_after_removal_witness :
  let run := rebuild_and_redeploy cwd0 client (with_build (inr build_log_text) Fake.fresh) in
  count is_creation (events run) = 1 /\
  count is_build_call (events run) <= 1 /\
  exists chunks, In (EBuild (BUILD_CONTEXT_PATH cwd0) IMAGE_NAME (inr chunks)) (events run).
Proof.
  intros run.
  destruct (rebuild_builds_once_after_removal cwd0 (with_build (inr build_log_text) Fake.fresh))
    as (Hbuild & _ & _ & _ & Hcreated).
  assert (Hone : count is_creation (events run) = 1) by (vm_compute; reflexivity).
  split; [exact Hone|]. split; [exact Hbuild | exact (Hcreated Hone)].
Defined.

Lemma last_answer_app (t u : list event) :
  u <> [] -> last_answer (t ++ u) = last_answer u.
Proof.
  intros Hu. induction t as [|e t IH]; [reflexivity|].
  cbn [app]. destruct (t ++ u) eqn:E.
  - destruct t; [cbn in E; congruence | discriminate].
  - exact IH.
Qed.

(** X19.  A rebuild returns normally in two ways only.  Either the build
    raised [BuildError] and what is returned is the exception object with the
    reason of the failure, or the build succeeded, start answered
    [already_running] or [started_and_running], the reply embeds that answer
    and the stripped stream lines of the build log, and the last thing the
    engine said is that the container is running. *)
Theorem rebuild_returns_in_two_ways {W : Type} {RT : Runtime W}
    (cwd : string) (w : W) (r : pyval) :
  let run := rebuild_and_redeploy cwd client w in
  result run = Ok r ->
  (exists msg build_log,
     In (EBuild (BUILD_CONTEXT_PATH cwd) IMAGE_NAME (inl (BuildError msg build_log))) (events run) /\
     r = PHTTPException 500 (PDict [("status", PStr "build_failed"); ("logs", PStr msg)])) \/
  (exists chunks start_response,
     In (EBuild (BUILD_CONTEXT_PATH cwd) IMAGE_NAME (inr chunks)) (events run) /\
     r = PDict [("status", PStr "rebuild_and_restart_successful");
                ("final_container_status", start_response);
                ("build_logs", PStr (rendered (streams chunks)))] /\
     (start_response = PDict [("status", PStr "already_running")] \/
      start_response = PDict [("status", PStr "started_and_running")]) /\
     last_answer (events run) = Some (inr "running")).
Proof.
  cbv zeta. rewrite rebuild_and_redeploy_eq.
  destruct (remove_old w) as [[[u|e] w1] t1]; unfold events, result in *; cbn [fst snd] in *;
    [|discriminate].
  destruct (images_build (BUILD_CONTEXT_PATH cwd) IMAGE_NAME w1) as [[f|chunks] w2].
  - cbn [fst snd]. destruct f; cbn [build_handler]; try discriminate.
    intros Hr. injection Hr as <-. left. exists msg, build_log. split; [|reflexivity].
    apply in_or_app. right. left. reflexivity.
  - pose proof (running_was_seen cwd w2) as [Hstart _].
    destruct (start_container cwd client w2) as [[[a|e] w3] t3];
      unfold events, result in *; cbn [fst snd] in *; [|discriminate].
    intros Hr. injection Hr as <-. right. exists chunks, a.
    destruct (Hstart a eq_refl) as [Hreply Hlast].
    split; [apply in_or_app; right; left; reflexivity|].
    split; [rewrite stream_logs_rendered; reflexivity|].
    split; [exact Hreply|].
    assert (Hne : t3 <> []) by (destruct t3; discriminate).
    change (t1 ++ EBuild (BUILD_CONTEXT_PATH cwd) IMAGE_NAME (inr chunks) :: t3)
      with (t1 ++ [EBuild (BUILD_CONTEXT_PATH cwd) IMAGE_NAME (inr chunks)] ++ t3).
    rewrite app_assoc, last_answer_app; [exact Hlast | exact Hne].
Qed.

Lemma rebuild_returns_in_two_ways_witness :
  let run := rebuild_and_redeploy cwd0 client (with_build (inr build_log_text) Fake.fresh) in
  result run =
    Ok (PDict [("status", PStr "rebuild_and_restart_successful");
               ("final_container_status", PDict [("status", PStr "started_and_running")]);
               ("build_logs", PStr (rendered (streams build_log_text)))]) /\
  last_answer (events run) = Some (inr "running").
Proof.
  intros run.
  assert (Hok : result run =
    Ok (PDict [("status", PStr "rebuild_and_restart_successful");
               ("final_container_status", PDict [("status", PStr "started_and_running")]);
               ("build_logs", PStr (rendered (streams build_log_text)))]))
    by (vm_compute; reflexivity).
  destruct (rebuild_returns_in_two_ways cwd0 _ _ Hok)
    as [(msg & build_log & _ & Hr)|(chunks & resp & _ & _ & _ & Hlast)].
  - discriminate Hr.
  - split; [exact Hok | exact Hlast].
Defined.

(** X20.  The build log text is built from the ["stream"] entries alone:
    every chunk without that key is skipped, every entry is stripped and
    followed by a newline, in the order of the chunks and after what was
    accumulated before; accumulating over two logs in a row is accumulating
    over their concatenation. *)
Theorem build_logs_are_the_stripped_stream_lines
    (chunks more : list chunk) (build_logs : string) :
  stream_logs chunks build_logs = (build_logs ++ rendered (streams chunks))%string /\
  stream_logs (chunks ++ more) build_logs = stream_logs more (stream_logs chunks build_logs).
Proof.
  split; [apply stream_logs_rendered|].
  revert build_logs. induction chunks as [|c chunks IH]; intros build_logs; [reflexivity|].
  cbn [app stream_logs]. destruct (c !! "stream"); apply IH.
Qed.

(** X22.  The connection attempt at start-up never raises.  It yields a
    client exactly when both [from_env] and [ping] answered; when [from_env]
    raises, [ping] is not tried. *)
Theorem connect_yields_a_client_or_none {W : Type} {RT : Runtime W} (w : W) :
  (result (connect w) = Ok (Some docker_client) /\
   events (connect w) = [EFromEnv (inr tt); EPing (inr tt)]) \/
  (result (connect w) = Ok None /\
   exists f, events (connect w) = [EFromEnv (inl f)] \/
             events (connect w) = [EFromEnv (inr tt); EPing (inl f)]).
Proof.
  unfold connect, try_except, and_then, invoke, ret.
  destruct (docker_from_env w) as [[f|[]] w1].
  - right. split; [reflexivity|]. exists f. left. reflexivity.
  - destruct (client_ping w1) as [[f|[]] w2].
    + right. split; [reflexivity|]. exists f. right. reflexivity.
    + left. split; reflexivity.
Qed.

(** A first start on a fresh host: one creation, of the fixed image under the
    fixed name with the data directory mounted. *)
Lemma start_footprint_witness :
  let run := start_container cwd0 client Fake.fresh in
  let created := mkContainer 0 CONTAINER_NAME "running" in
  In (ERun IMAGE_NAME CONTAINER_NAME (volumes cwd0) (inr created)) (events run) /\
  count is_creation (events run) = 1 /\
  volumes cwd0 = [ {| host_path := "/srv/manager/app/trading_data"; bind := "/app/data"; mode := "rw" |} ].
Proof.
  intros run created.
  destruct (start_footprint cwd0 Fake.fresh) as (_ & _ & Hcount & Hargs).
  assert (Hin : In (ERun IMAGE_NAME CONTAINER_NAME (volumes cwd0) (inr created)) (events run)).
  { vm_compute. right. left. reflexivity. }
  destruct (Hargs _ _ _ _ Hin) as (_ & _ & Hvols).
  split; [exact Hin|]. split; [exact Hcount | exact Hvols].
Defined.
